(** * Governance transaction commands (x/gov/client/cli/tx.go)

    A shallow embedding of the four command constructors of the governance
    CLI and of the parts of [strconv] and [cobra] they rely on, together
    with the properties of the command-line surface. *)

From Stdlib Require Import ZArith Lia Bool Ascii String List.
From stdpp Require Import gmap strings list pretty.
Import ListNotations.

Local Open Scope string_scope.
Local Open Scope Z_scope.

(** ** strconv.ParseUint(s, 10, 64) *)

Module strconv.

(** The two sentinel errors a [*NumError] carries. *)
Inductive NumError : Type := ErrSyntax | ErrRange.

Definition maxUint64 : Z := 2 ^ 64 - 1.

(** uint64 arithmetic wraps around. *)
Definition wrap64 (z : Z) : Z := z mod 2 ^ 64.

Definition base : Z := 10.
Definition bitSize : Z := 64.

(** [cutoff] is the smallest number such that [cutoff * base > maxUint64]. *)
Definition cutoff : Z := maxUint64 / 10 + 1.

(** [uint64(1)<<uint(bitSize) - 1]. *)
Definition maxVal : Z := wrap64 (wrap64 (Z.shiftl 1 bitSize) - 1).

Definition byte_of (c : ascii) : Z := Z.of_N (N_of_ascii c).

(** [lower(c)] is [c | ('x' - 'X')]. *)
Definition lower (c : Z) : Z := Z.lor c 32.

(** The body of [for _, c := range []byte(s)], with the accumulator [n].
    Base 10 is not the "base prefix" mode, so the underscore case of the
    switch is never taken and an underscore falls to [default]. *)
Fixpoint ParseUint_loop (s : string) (n : Z) : Z * option NumError :=
  match s with
  | EmptyString => (n, None)
  | String ch rest =>
      let c := byte_of ch in
      let digit : option Z :=
        if (48 <=? c) && (c <=? 57) then Some (c - 48)
        else if (97 <=? lower c) && (lower c <=? 122)
             then Some (lower c - 97 + 10)
             else None in
      match digit with
      | None => (0, Some ErrSyntax)
      | Some d =>
          if base <=? d then (0, Some ErrSyntax)
          else if cutoff <=? n then (maxVal, Some ErrRange)
          else
            let n' := wrap64 (n * base) in
            let n1 := wrap64 (n' + d) in
            if (n1 <? n') || (maxVal <? n1) then (maxVal, Some ErrRange)
            else ParseUint_loop rest n1
      end
  end.

Definition ParseUint (s : string) : Z * option NumError :=
  if String.eqb s "" then (0, Some ErrSyntax)
  else ParseUint_loop s 0.

(** *** What the documentation calls a decimal unsigned 64-bit integer *)

Definition is_decimal_digit (ch : ascii) : bool :=
  (48 <=? byte_of ch) && (byte_of ch <=? 57).

Fixpoint all_decimal_digits (s : string) : bool :=
  match s with
  | EmptyString => true
  | String ch rest => is_decimal_digit ch && all_decimal_digits rest
  end.

(** Positional value of the digits of [s] appended to the number [acc]. *)
Fixpoint decimal_value_from (acc : Z) (s : string) : Z :=
  match s with
  | EmptyString => acc
  | String ch rest => decimal_value_from (acc * 10 + (byte_of ch - 48)) rest
  end.

Definition decimal_value (s : string) : Z := decimal_value_from 0 s.

(** A non-empty string of decimal digits whose value fits in 64 bits. *)
Definition is_decimal_uint64 (s : string) : bool :=
  negb (String.eqb s "") && all_decimal_digits s
  && (decimal_value s <=? maxUint64).

Lemma byte_of_range ch : 0 <= byte_of ch < 256.
Proof.
  unfold byte_of. pose proof (N_ascii_bounded ch) as Hb. lia.
Qed.

Lemma decimal_value_from_mono s : forall acc,
  0 <= acc -> all_decimal_digits s = true -> acc <= decimal_value_from acc s.
Proof.
  induction s as [|ch rest IH]; intros acc Hacc Hd; simpl in *; [lia|].
  apply andb_prop in Hd as [Hc Hrest].
  unfold is_decimal_digit in Hc. apply andb_prop in Hc as [Hlo Hhi].
  apply Z.leb_le in Hlo, Hhi.
  specialize (IH (acc * 10 + (byte_of ch - 48))).
  assert (acc <= acc * 10 + (byte_of ch - 48)) by lia.
  etransitivity; [eassumption|]. apply IH; [lia|assumption].
Qed.

Lemma lower_not_digit c :
  0 <= c < 256 -> (48 <=? c) && (c <=? 57) = false ->
  (97 <=? lower c) && (lower c <=? 122) = true ->
  (base <=? lower c - 97 + 10) = true.
Proof.
  intros _ _ H. apply andb_prop in H as [H1 H2].
  apply Z.leb_le in H1, H2. apply Z.leb_le. unfold base. lia.
Qed.

(** The loop accepts exactly the digit strings that do not overflow, and
    then returns their value; on every other string it reports an error. *)
Lemma ParseUint_loop_spec s : forall n,
  0 <= n <= maxUint64 ->
  if all_decimal_digits s && (decimal_value_from n s <=? maxUint64)
  then ParseUint_loop s n = (decimal_value_from n s, None)
  else snd (ParseUint_loop s n) <> None.
Proof.
  induction s as [|ch rest IH]; intros n Hn.
  - simpl. destruct (n <=? maxUint64) eqn:E; [reflexivity|].
    apply Z.leb_gt in E. lia.
  - cbn [ParseUint_loop all_decimal_digits decimal_value_from].
    unfold is_decimal_digit.
    pose proof (byte_of_range ch) as Hb.
    destruct ((48 <=? byte_of ch) && (byte_of ch <=? 57)) eqn:Hdig.
    + apply andb_prop in Hdig as [Hlo Hhi].
      apply Z.leb_le in Hlo, Hhi.
      set (d := byte_of ch - 48) in *.
      assert (Hd : 0 <= d <= 9) by (subst d; lia).
      replace (base <=? d) with false
        by (symmetry; apply Z.leb_gt; unfold base; lia).
      cbn [andb].
      assert (Hmax : maxVal = maxUint64) by reflexivity.
      assert (Hcut : cutoff = 1844674407370955162) by reflexivity.
      assert (Hmx : maxUint64 = 18446744073709551615) by reflexivity.
      assert (Hbig : n * 10 + d > maxUint64 ->
                     all_decimal_digits rest
                     && (decimal_value_from (n * 10 + d) rest <=? maxUint64)
                     = false).
      { intros Hover. destruct (all_decimal_digits rest) eqn:Hrest;
          [|reflexivity].
        pose proof (decimal_value_from_mono rest (n * 10 + d)
                      ltac:(lia) Hrest) as Hm.
        apply Z.leb_gt. lia. }
      destruct (cutoff <=? n) eqn:Hc.
      * apply Z.leb_le in Hc. rewrite Hbig by lia. discriminate.
      * apply Z.leb_gt in Hc.
        assert (Hw : wrap64 (n * base) = n * 10).
        { unfold wrap64, base. apply Z.mod_small. lia. }
        rewrite Hw.
        destruct (Z_le_gt_dec (n * 10 + d) maxUint64) as [Hfit|Hover].
        -- assert (Hw1 : wrap64 (n * 10 + d) = n * 10 + d).
           { unfold wrap64. apply Z.mod_small. lia. }
           rewrite Hw1, Hmax.
           replace ((n * 10 + d <? n * 10) || (maxUint64 <? n * 10 + d))
             with false
             by (symmetry; apply orb_false_iff; split;
                 apply Z.ltb_ge; lia).
           apply (IH (n * 10 + d)). lia.
        -- assert (Hw1 : wrap64 (n * 10 + d) = n * 10 + d - 2 ^ 64).
           { unfold wrap64. symmetry.
             apply (Z.mod_unique _ _ 1); lia. }
           rewrite Hw1, Hbig by lia.
           replace (n * 10 + d - 2 ^ 64 <? n * 10) with true
             by (symmetry; apply Z.ltb_lt; lia).
           discriminate.
    + cbn [andb].
      destruct ((97 <=? lower (byte_of ch)) && (lower (byte_of ch) <=? 122))
        eqn:Hlet.
      * rewrite (lower_not_digit _ Hb Hdig Hlet). discriminate.
      * discriminate.
Qed.

(** [ParseUint] succeeds exactly on the decimal unsigned 64-bit integers. *)
Lemma ParseUint_spec s :
  if is_decimal_uint64 s
  then ParseUint s = (decimal_value s, None)
  else snd (ParseUint s) <> None.
Proof.
  unfold ParseUint, is_decimal_uint64, decimal_value.
  destruct (String.eqb s "") eqn:E; cbn [negb andb]; [discriminate|].
  apply ParseUint_loop_spec. unfold maxUint64. lia.
Qed.

Lemma ParseUint_ok s :
  is_decimal_uint64 s = true -> ParseUint s = (decimal_value s, None).
Proof. intros H. pose proof (ParseUint_spec s) as P. now rewrite H in P. Qed.

Lemma ParseUint_err s :
  is_decimal_uint64 s = false -> snd (ParseUint s) <> None.
Proof. intros H. pose proof (ParseUint_spec s) as P. now rewrite H in P. Qed.

Lemma ParseUint_fails s n e :
  ParseUint s = (n, Some e) -> is_decimal_uint64 s = false.
Proof.
  intros H. pose proof (ParseUint_spec s) as P.
  destruct (is_decimal_uint64 s); [|reflexivity].
  rewrite H in P. discriminate.
Qed.

Lemma decimal_value_range s :
  is_decimal_uint64 s = true -> 0 <= decimal_value s <= maxUint64.
Proof.
  unfold is_decimal_uint64. intros H.
  apply andb_prop in H as [H Hle]. apply andb_prop in H as [_ Hd].
  apply Z.leb_le in Hle. split; [|assumption].
  apply (decimal_value_from_mono s 0); [lia|assumption].
Qed.

End strconv.

(** ** Errors and results *)

(** Go [error] values, as far as this file builds them: a formatted
    message ([fmt.Errorf]) or an error wrapped with a description
    ([sdkerrors.Wrap], [sdkerrors.Wrapf]). *)
Inductive error : Type :=
| Errorf (msg : string)
| Wrap (err : error) (description : string).

(** [Error()] of a wrapped error is the message of its parent, a colon,
    and the description. *)
Fixpoint Error (e : error) : string :=
  match e with
  | Errorf msg => msg
  | Wrap err description => Error err +:+ ": " +:+ description
  end.

(** A Go [(value, error)] pair with the usual convention. *)
Inductive result (A : Type) : Type :=
| Ok (a : A)
| Err (e : error).
Arguments Ok {A} a.
Arguments Err {A} e.

(** How a call ends: normally, with an error, or with a run-time panic
    (an index out of range). *)
Inductive outcome (A : Type) : Type :=
| Done (a : A)
| Failed (e : error)
| Panicked.
Arguments Done {A} a.
Arguments Failed {A} e.
Arguments Panicked {A}.

(** ** Data of the package *)

(** Proposal flags. *)
Definition FlagTitle : string := "title".
Definition FlagDescription : string := "description".
Definition flagProposalType : string := "type".
Definition FlagDeposit : string := "deposit".
Definition flagVoter : string := "voter".
Definition flagDepositor : string := "depositor".
Definition flagStatus : string := "status".
Definition FlagProposal : string := "proposal".

Record proposal : Type := mkProposal {
  Title : string;
  Description : string;
  Type_ : string;
  Deposit : string
}.

(** The core required fields of a proposal, used to verify that these
    values are not provided in conjunction with a JSON proposal file. *)
Definition ProposalFlags : list string :=
  [FlagTitle; FlagDescription; flagProposalType; FlagDeposit].

(** The options of a vote: yes/no/no_with_veto/abstain. *)
Inductive VoteOption : Type :=
| OptionYes | OptionAbstain | OptionNo | OptionNoWithVeto.

(** The types of the surrounding chain framework. *)
Class ChainTypes : Type := {
  AccountID : Type;
  AccAddress : Type;
  Coins : Type;
  Content : Type;
  TxBuilder : Type;
  KuCLIContext : Type
}.

Section Model.
Context `{CT : ChainTypes}.

(** The four messages, each holding the arguments of its constructor. *)
Inductive Msg : Type :=
| NewKuMsgSubmitProposal (addr : AccAddress) (content : Content)
                         (amount : Coins) (proposer : AccountID)
| NewKuMsgDeposit (addr : AccAddress) (depositor : AccountID)
                  (proposalID : Z) (amount : Coins)
| NewKuMsgVote (addr : AccAddress) (voter : AccountID)
               (proposalID : Z) (option : VoteOption)
| NewMsgGovUnjail (addr : AccAddress) (validator : AccountID).

(** What a run of a command does besides computing: the account query,
    the construction and validation of the message, and the hand-off to
    the broadcast pipeline. *)
Inductive Event : Type :=
| EvQueryAccountAuth (ctx : KuCLIContext) (acc : AccountID)
| EvNewMsg (m : Msg)
| EvValidateBasic (m : Msg)
| EvGenerateOrBroadcastMsgs (ctx : KuCLIContext) (bldr : TxBuilder)
                            (msgs : list Msg).

Definition is_query (ev : Event) : bool :=
  match ev with EvQueryAccountAuth _ _ => true | _ => false end.

Definition is_broadcast (ev : Event) : bool :=
  match ev with EvGenerateOrBroadcastMsgs _ _ _ => true | _ => false end.

(** A run: the events in the order they happened, and how it ended. *)
Definition Run (A : Type) : Type := (list Event * outcome A)%type.

Definition trace {A} (r : Run A) : list Event := fst r.
Definition ending {A} (r : Run A) : outcome A := snd r.

#[global] Instance Run_ret : MRet Run := fun A a => ([], Done a).

#[global] Instance Run_bind : MBind Run := fun A B k m =>
  match m with
  | (t, Done a) => let '(t', o) := k a in ((t ++ t')%list, o)
  | (t, Failed e) => (t, Failed e)
  | (t, Panicked) => (t, Panicked)
  end.

Definition emit (ev : Event) : Run unit := ([ev], Done tt).
Definition fail {A} (e : error) : Run A := ([], Failed e).
Definition panic {A} : Run A := ([], Panicked).

(** [if err != nil { return f(err) }]. *)
Definition check {A} (r : result A) (f : error -> error) : Run A :=
  match r with
  | Ok a => mret a
  | Err e => fail (f e)
  end.

(** [return err], where [nil] means success. *)
Definition returning (err : option error) : Run unit :=
  match err with
  | None => mret tt
  | Some e => fail e
  end.

(** [args[i]]: an index out of range panics. *)
Definition index (args : list string) (i : nat) : Run string :=
  match args !! i with
  | Some a => mret a
  | None => panic
  end.

End Model.

(** ** The framework the commands call into *)

(** The functions of the surrounding packages that this file calls. None of
    them is defined in this file; the commands are verified for every
    implementation of them. *)
Class ChainAPI `{CT : ChainTypes} : Type := {
  (** chain/types *)
  ParseCoins : string -> result Coins;
  NewAccountIDFromStr : string -> result AccountID;
  AccountID_String : AccountID -> string;
  AccountID_Empty : AccountID -> bool;
  (** x/gov/types *)
  ModuleName : string;
  ContentFromProposalType : string -> string -> string -> Content;
  VoteOptionFromString : string -> result VoteOption;
  ValidateBasic : Msg -> option error;
  (** x/gov/client/utils *)
  NormalizeVoteOption : string -> string;
  (** chain/client/txutil *)
  NewTxBuilderFromCLI : TxBuilder;
  WithTxEncoder : TxBuilder -> TxBuilder;
  NewKuCLICtxByBuf : KuCLIContext;
  QueryAccountAuth : KuCLIContext -> AccountID -> result AccAddress;
  WithFromAccount : KuCLIContext -> AccountID -> KuCLIContext;
  FeePayer : TxBuilder -> AccountID;
  WithPayer : TxBuilder -> string -> TxBuilder;
  GenerateOrBroadcastMsgs :
    KuCLIContext -> TxBuilder -> list Msg -> option error;
  (** chain/client/flags: the flags every transaction command receives *)
  TxFlags : list string;
  (** client.ValidateCmd, the run function of a command group *)
  ValidateCmd : list string -> option error;
  (** reading and decoding a proposal JSON file *)
  ReadProposalFile : string -> result proposal
}.

(** ** cobra *)

(** A command: its usage line, the check of its positional arguments, the
    names of its flags, its run function (given the values of the flags and
    the positional arguments) and its subcommands. *)
#[warnings="-register-all"]
Inductive Command `{CT : ChainTypes} : Type := mkCommand {
  Use : string;
  Short : string;
  Args : list string -> option error;
  Flags : list string;
  RunE : gmap string string -> list string -> Run unit;
  Commands : list Command
}.
Arguments mkCommand {CT} Use Short Args Flags RunE Commands.

Section Cobra.
Context `{CT : ChainTypes}.

(** [cobra.ExactArgs(n)]. *)
Definition ExactArgs (n : nat) (args : list string) : option error :=
  if Nat.eqb (length args) n then None
  else Some (Errorf ("accepts " +:+ pretty n +:+ " arg(s), received "
                     +:+ pretty (length args))).

(** The name of a command is the first word of its usage line. *)
Fixpoint first_word (s : string) : string :=
  match s with
  | EmptyString => EmptyString
  | String ch rest =>
      if Ascii.eqb ch " "%char then EmptyString
      else String ch (first_word rest)
  end.

Definition Name (c : Command) : string := first_word (Use c).

(** [c.AddCommand(cmds...)]. *)
Definition AddCommand (c : Command) (cmds : list Command) : Command :=
  mkCommand (Use c) (Short c) (Args c) (Flags c) (RunE c)
            (Commands c ++ cmds)%list.

Definition AddFlags (names : list string) (c : Command) : Command :=
  mkCommand (Use c) (Short c) (Args c) (Flags c ++ names)%list (RunE c)
            (Commands c).

(** Running a command on its positional arguments: the arguments are
    validated first, and the run function is called only when the
    validation passes. *)
Definition execute (c : Command) (flags : gmap string string)
                   (args : list string) : Run unit :=
  match Args c args with
  | Some err => fail err
  | None => RunE c flags args
  end.

(** [viper.GetString]: the value of a string flag; every string flag of
    this file is declared with the empty string as its default. *)
Definition GetString (flags : gmap string string) (name : string) : string :=
  default "" (flags !! name).

End Cobra.

(** ** The commands *)

Section Commands.
Context `{API : ChainAPI}.

(** Calls into the framework, recorded in the trace of the run. *)
Definition call_QueryAccountAuth (ctx : KuCLIContext) (acc : AccountID)
  : Run (result AccAddress) :=
  _ ← emit (EvQueryAccountAuth ctx acc); mret (QueryAccountAuth ctx acc).

Definition construct (m : Msg) : Run Msg :=
  _ ← emit (EvNewMsg m); mret m.

Definition call_ValidateBasic (m : Msg) : Run (option error) :=
  _ ← emit (EvValidateBasic m); mret (ValidateBasic m).

Definition call_GenerateOrBroadcastMsgs (ctx : KuCLIContext)
    (bldr : TxBuilder) (msgs : list Msg) : Run (option error) :=
  _ ← emit (EvGenerateOrBroadcastMsgs ctx bldr msgs);
  mret (GenerateOrBroadcastMsgs ctx bldr msgs).

(** [sdkerrors.Wrapf(err, "query account %s auth error", acc)]. *)
Definition query_error (acc : AccountID) (err : error) : error :=
  Wrap err ("query account " +:+ AccountID_String acc +:+ " auth error").

(** [if txBldr.FeePayer().Empty() { txBldr = txBldr.WithPayer(args[0]) }]. *)
Definition default_payer (txBldr : TxBuilder) (args : list string)
  : Run TxBuilder :=
  if AccountID_Empty (FeePayer txBldr)
  then a0 ← index args 0; mret (WithPayer txBldr a0)
  else mret txBldr.

(** Modelled from the spec: [parseSubmitProposalFlags] belongs to this
    package but is not in this file. A proposal is given either by the
    discrete flags or by a JSON file path, never both: with no file path
    the proposal is read from the flags; with a file path, any of
    [ProposalFlags] set to a value is an error that names the flag;
    otherwise the proposal is read from the file. *)
Definition parseSubmitProposalFlags (flags : gmap string string)
  : result proposal :=
  let proposalFile := GetString flags FlagProposal in
  if String.eqb proposalFile "" then
    Ok (mkProposal (GetString flags FlagTitle)
                   (GetString flags FlagDescription)
                   (GetString flags flagProposalType)
                   (GetString flags FlagDeposit))
  else
    match List.find (fun flag => negb (String.eqb (GetString flags flag) ""))
                    ProposalFlags with
    | Some flag =>
        Err (Errorf ("--" +:+ flag +:+
                     " flag provided alongside --proposal, which is a noop"))
    | None => ReadProposalFile proposalFile
    end.

Definition SubmitProposal_RunE (flags : gmap string string)
    (args : list string) : Run unit :=
  let txBldr := WithTxEncoder NewTxBuilderFromCLI in
  let cliCtx := NewKuCLICtxByBuf in
  proposal ← check (parseSubmitProposalFlags flags) id;
  amount ← check (ParseCoins (Deposit proposal)) id;
  a0 ← index args 0;
  proposerAccount ← check (NewAccountIDFromStr a0)
                          (fun err => Wrap err "proposer account id error");
  let content := ContentFromProposalType (Title proposal)
                   (Description proposal) (Type_ proposal) in
  r ← call_QueryAccountAuth cliCtx proposerAccount;
  proposalAccAddress ← check r (query_error proposerAccount);
  msg ← construct (NewKuMsgSubmitProposal proposalAccAddress content
                                          amount proposerAccount);
  err ← call_ValidateBasic msg;
  _ ← returning err;
  let cliCtx := WithFromAccount cliCtx proposerAccount in
  txBldr ← default_payer txBldr args;
  err ← call_GenerateOrBroadcastMsgs cliCtx txBldr [msg];
  returning err.

Definition GetCmdSubmitProposal : Command :=
  mkCommand "submit-proposal [proposer]"
            "Submit a proposal along with an initial deposit"
            (ExactArgs 1)
            [FlagTitle; FlagDescription; flagProposalType; FlagDeposit;
             FlagProposal]
            SubmitProposal_RunE
            [].

Definition Deposit_RunE (flags : gmap string string) (args : list string)
  : Run unit :=
  let txBldr := WithTxEncoder NewTxBuilderFromCLI in
  let cliCtx := NewKuCLICtxByBuf in
  a1 ← index args 1;
  proposalID ←
    match strconv.ParseUint a1 with
    | (n, None) => mret n
    | (_, Some _) =>
        a1 ← index args 1;
        fail (Errorf ("proposal-id " +:+ a1 +:+
               " not a valid uint, please input a valid proposal-id"))
    end;
  a2 ← index args 2;
  amount ← check (ParseCoins a2) id;
  a0 ← index args 0;
  depositorAccount ← check (NewAccountIDFromStr a0)
                           (fun err => Wrap err "depositor account id error");
  r ← call_QueryAccountAuth cliCtx depositorAccount;
  depositorAccAddress ← check r (query_error depositorAccount);
  msg ← construct (NewKuMsgDeposit depositorAccAddress depositorAccount
                                   proposalID amount);
  err ← call_ValidateBasic msg;
  _ ← returning err;
  let cliCtx := WithFromAccount cliCtx depositorAccount in
  txBldr ← default_payer txBldr args;
  err ← call_GenerateOrBroadcastMsgs cliCtx txBldr [msg];
  returning err.

Definition GetCmdDeposit : Command :=
  mkCommand "deposit [depositor] [proposal-id] [deposit]"
            "Deposit tokens for an active proposal"
            (ExactArgs 3) [] Deposit_RunE [].

Definition Vote_RunE (flags : gmap string string) (args : list string)
  : Run unit :=
  let txBldr := WithTxEncoder NewTxBuilderFromCLI in
  let cliCtx := NewKuCLICtxByBuf in
  a1 ← index args 1;
  proposalID ←
    match strconv.ParseUint a1 with
    | (n, None) => mret n
    | (_, Some _) =>
        a1 ← index args 1;
        fail (Errorf ("proposal-id " +:+ a1 +:+
               " not a valid int, please input a valid proposal-id"))
    end;
  a2 ← index args 2;
  byteVoteOption ←
    check (VoteOptionFromString (NormalizeVoteOption a2)) id;
  a0 ← index args 0;
  VoterAccount ← check (NewAccountIDFromStr a0)
                       (fun err => Wrap err "depositor account id error");
  r ← call_QueryAccountAuth cliCtx VoterAccount;
  voterAccAddress ← check r (query_error VoterAccount);
  msg ← construct (NewKuMsgVote voterAccAddress VoterAccount proposalID
                                byteVoteOption);
  err ← call_ValidateBasic msg;
  _ ← returning err;
  let cliCtx := WithFromAccount cliCtx VoterAccount in
  txBldr ← default_payer txBldr args;
  err ← call_GenerateOrBroadcastMsgs cliCtx txBldr [msg];
  returning err.

Definition GetCmdVote : Command :=
  mkCommand "vote [voter-account] [proposal-id] [option]"
            "Vote for an active proposal, options: yes/no/no_with_veto/abstain"
            (ExactArgs 3) [] Vote_RunE [].

Definition UnJail_RunE (flags : gmap string string) (args : list string)
  : Run unit :=
  let txBldr := WithTxEncoder NewTxBuilderFromCLI in
  let cliCtx := NewKuCLICtxByBuf in
  a0 ← index args 0;
  ValidatorAccount ← check (NewAccountIDFromStr a0)
                           (fun err => Wrap err "depositor account id error");
  r ← call_QueryAccountAuth cliCtx ValidatorAccount;
  ValidatorAccAddress ← check r (query_error ValidatorAccount);
  msg ← construct (NewMsgGovUnjail ValidatorAccAddress ValidatorAccount);
  err ← call_ValidateBasic msg;
  _ ← returning err;
  let cliCtx := WithFromAccount cliCtx ValidatorAccount in
  txBldr ← default_payer txBldr args;
  err ← call_GenerateOrBroadcastMsgs cliCtx txBldr [msg];
  returning err.

Definition GetCmdUnJail : Command :=
  mkCommand "unjail [validator-account]"
            "unjail validator previously jailed for downtime"
            (ExactArgs 1) [] UnJail_RunE [].

(** Modelled from the spec: [flags.PostCommands] (chain/client/flags) is
    not in this file. The command-line surface lists the commands it is
    given unchanged under their parent, so it returns them in the same
    order, each extended with the shared transaction flags. *)
Definition PostCommands (cmds : list Command) : list Command :=
  map (AddFlags TxFlags) cmds.

(** [GetTxCmd] returns the transaction commands of the module; [pcmds]
    are the proposal child commands, which are mounted under
    [submit-proposal]. *)
Definition GetTxCmd (storeKey : string) (pcmds : list Command) : Command :=
  let govTxCmd :=
    mkCommand ModuleName "Governance transactions subcommands"
              (fun _ => None) []
              (fun _ args => returning (ValidateCmd args)) [] in
  let cmdSubmitProp :=
    fold_left (fun c pcmd => AddCommand c (firstn 1 (PostCommands [pcmd])))
              pcmds GetCmdSubmitProposal in
  AddCommand govTxCmd
    (PostCommands [GetCmdDeposit; GetCmdVote; GetCmdUnJail; cmdSubmitProp]).

End Commands.

(** ** A small framework to run the commands on *)

(** A concrete framework: account ids, addresses and coins are strings, a
    transaction builder is its fee payer, a context is its "from" account.
    The empty string is no account id, the account [nobody] has no
    authorisation, [?] is no coin expression, and a message with the empty
    amount or the empty address fails its validation. *)
Module Sample.

#[export] Instance types : ChainTypes := {|
  AccountID := string;
  AccAddress := string;
  Coins := string;
  Content := string * string * string;
  TxBuilder := string;
  KuCLIContext := option string
|}.

Definition parseCoins (s : string) : result string :=
  if String.eqb s "?" then Err (Errorf "invalid coin expression: ?")
  else Ok s.

Definition newAccountIDFromStr (s : string) : result string :=
  if String.eqb s "" then Err (Errorf "account id is empty") else Ok s.

Definition normalizeVoteOption (s : string) : string :=
  if String.eqb s "Yes" || String.eqb s "yes" then "Yes"
  else if String.eqb s "Abstain" || String.eqb s "abstain" then "Abstain"
  else if String.eqb s "No" || String.eqb s "no" then "No"
  else if String.eqb s "NoWithVeto" || String.eqb s "no_with_veto"
       then "NoWithVeto"
  else "".

Definition voteOptionFromString (s : string) : result VoteOption :=
  if String.eqb s "Yes" then Ok OptionYes
  else if String.eqb s "Abstain" then Ok OptionAbstain
  else if String.eqb s "No" then Ok OptionNo
  else if String.eqb s "NoWithVeto" then Ok OptionNoWithVeto
  else Err (Errorf ("'" +:+ s +:+ "' is not a valid vote option")).

Definition validateBasic (m : Msg) : option error :=
  match m with
  | NewKuMsgSubmitProposal _ _ amount _
  | NewKuMsgDeposit _ _ _ amount =>
      if String.eqb amount "" then Some (Errorf "invalid deposit amount")
      else None
  | NewKuMsgVote addr _ _ _
  | NewMsgGovUnjail addr _ =>
      if String.eqb addr "" then Some (Errorf "missing address") else None
  end.

Definition queryAccountAuth (ctx : option string) (acc : string)
  : result string :=
  if String.eqb acc "nobody" then Err (Errorf "account not found")
  else if String.eqb acc "ghost" then Ok ""
  else Ok ("addr:" +:+ acc).

(** The framework whose builder starts with the fee payer [payer]. *)
Definition api (payer : string) : ChainAPI := {|
  ParseCoins := parseCoins;
  NewAccountIDFromStr := newAccountIDFromStr;
  AccountID_String := fun acc => acc;
  AccountID_Empty := fun acc => String.eqb acc "";
  ModuleName := "kugov";
  ContentFromProposalType := fun title description type_ =>
                               (title, description, type_);
  VoteOptionFromString := voteOptionFromString;
  ValidateBasic := validateBasic;
  NormalizeVoteOption := normalizeVoteOption;
  NewTxBuilderFromCLI := payer;
  WithTxEncoder := fun bldr => bldr;
  NewKuCLICtxByBuf := None;
  QueryAccountAuth := queryAccountAuth;
  WithFromAccount := fun _ acc => Some acc;
  FeePayer := fun bldr => bldr;
  WithPayer := fun _ payer => payer;
  GenerateOrBroadcastMsgs := fun _ _ _ => None;
  TxFlags := ["from"; "fees"];
  ValidateCmd := fun _ => None;
  ReadProposalFile := fun _ =>
    Ok (mkProposal "Test Proposal" "My awesome proposal" "Text" "10test")
|}.

(** Flag values on the command line. *)
Definition flags_of (l : list (string * string)) : gmap string string :=
  list_to_map l.

End Sample.

(** ** Properties of the commands *)

Section Properties.
Context `{API : ChainAPI}.

(** The builder and the context every run function starts from. *)
Definition txBldr0 : TxBuilder := WithTxEncoder NewTxBuilderFromCLI.
Definition cliCtx0 : KuCLIContext := NewKuCLICtxByBuf.

(** The four commands of the group. *)
Definition every_command (P : Command -> Prop) : Prop :=
  P GetCmdSubmitProposal /\ P GetCmdDeposit /\ P GetCmdVote /\
  P GetCmdUnJail.

(** The address and the account a message is built from. *)
Definition msg_address (m : Msg) : AccAddress :=
  match m with
  | NewKuMsgSubmitProposal addr _ _ _ | NewKuMsgDeposit addr _ _ _
  | NewKuMsgVote addr _ _ _ | NewMsgGovUnjail addr _ => addr
  end.

Definition msg_account (m : Msg) : AccountID :=
  match m with
  | NewKuMsgSubmitProposal _ _ _ acc | NewKuMsgDeposit _ acc _ _
  | NewKuMsgVote _ acc _ _ | NewMsgGovUnjail _ acc => acc
  end.

(** A run that constructs a message has queried, exactly once and
    before the construction, the account its first argument names, and
    builds the message from that account and the address found. *)
Definition resolves_once_before_message (args : list string)
    (r : Run unit) : Prop :=
  forall m, In (EvNewMsg m) (trace r) ->
    exists a0 acc addr rest,
      args !! 0%nat = Some a0 /\
      NewAccountIDFromStr a0 = Ok acc /\
      QueryAccountAuth cliCtx0 acc = Ok addr /\
      msg_account m = acc /\ msg_address m = addr /\
      trace r = EvQueryAccountAuth cliCtx0 acc :: EvNewMsg m :: rest /\
      List.filter is_query rest = [].

(** A run whose account query fails stops there, with the error of the
    query wrapped in a description that quotes the account. *)
Definition failed_lookup_aborts (r : Run unit) : Prop :=
  forall ctx acc e,
    In (EvQueryAccountAuth ctx acc) (trace r) ->
    QueryAccountAuth ctx acc = Err e ->
    r = ([EvQueryAccountAuth ctx acc],
         Failed (Wrap e ("query account " +:+ AccountID_String acc +:+
                         " auth error"))).

(** A run that reaches the broadcast routine hands it the one message it
    constructed, after that message passed its validation. *)
Definition validated_before_broadcast (r : Run unit) : Prop :=
  forall ctx bldr msgs,
    In (EvGenerateOrBroadcastMsgs ctx bldr msgs) (trace r) ->
    exists acc m,
      msgs = [m] /\ ValidateBasic m = None /\
      trace r = [EvQueryAccountAuth cliCtx0 acc; EvNewMsg m;
                 EvValidateBasic m;
                 EvGenerateOrBroadcastMsgs ctx bldr msgs].

(** A run whose message fails its validation returns the error of the
    validation and never reaches the broadcast routine. *)
Definition invalid_message_stops (r : Run unit) : Prop :=
  forall m e,
    In (EvNewMsg m) (trace r) -> ValidateBasic m = Some e ->
    ending r = Failed e /\ List.filter is_broadcast (trace r) = [] /\
    In (EvValidateBasic m) (trace r).

(** The builder handed to the broadcast routine: the initial one with the
    payer set from the first argument if it had no fee payer, and the
    initial one itself otherwise. *)
Definition payer_defaulted (args : list string) (r : Run unit) : Prop :=
  forall ctx bldr msgs,
    In (EvGenerateOrBroadcastMsgs ctx bldr msgs) (trace r) ->
    if AccountID_Empty (FeePayer txBldr0)
    then exists a0, args !! 0%nat = Some a0 /\ bldr = WithPayer txBldr0 a0
    else bldr = txBldr0.

(** When the payer is defaulted it is the first argument as typed, while
    the address the query resolved it to goes into the message only. *)
Definition payer_is_raw_argument (args : list string) (r : Run unit)
  : Prop :=
  forall ctx bldr msgs,
    In (EvGenerateOrBroadcastMsgs ctx bldr msgs) (trace r) ->
    AccountID_Empty (FeePayer txBldr0) = true ->
    exists a0 acc addr m,
      args !! 0%nat = Some a0 /\ bldr = WithPayer txBldr0 a0 /\
      NewAccountIDFromStr a0 = Ok acc /\
      QueryAccountAuth cliCtx0 acc = Ok addr /\
      msgs = [m] /\ msg_address m = addr.

(** The inputs of a command are accepted up to the account query: the
    command has its number of arguments, everything parsed before the
    account id is accepted, and the first argument [a0] parses to the
    account [acc]. [mk] is the message the command builds once the account
    is resolved to an address. *)
Inductive reaches_lookup : Command -> gmap string string -> list string ->
    string -> AccountID -> (AccAddress -> Msg) -> Prop :=
| reaches_submit flags a0 p amount acc :
    parseSubmitProposalFlags flags = Ok p ->
    ParseCoins (Deposit p) = Ok amount ->
    NewAccountIDFromStr a0 = Ok acc ->
    reaches_lookup GetCmdSubmitProposal flags [a0] a0 acc
      (fun addr => NewKuMsgSubmitProposal addr
                     (ContentFromProposalType (Title p) (Description p)
                                              (Type_ p))
                     amount acc)
| reaches_deposit flags a0 a1 a2 amount acc :
    strconv.is_decimal_uint64 a1 = true ->
    ParseCoins a2 = Ok amount ->
    NewAccountIDFromStr a0 = Ok acc ->
    reaches_lookup GetCmdDeposit flags [a0; a1; a2] a0 acc
      (fun addr => NewKuMsgDeposit addr acc (strconv.decimal_value a1)
                                   amount)
| reaches_vote flags a0 a1 a2 option acc :
    strconv.is_decimal_uint64 a1 = true ->
    VoteOptionFromString (NormalizeVoteOption a2) = Ok option ->
    NewAccountIDFromStr a0 = Ok acc ->
    reaches_lookup GetCmdVote flags [a0; a1; a2] a0 acc
      (fun addr => NewKuMsgVote addr acc (strconv.decimal_value a1) option)
| reaches_unjail flags a0 acc :
    NewAccountIDFromStr a0 = Ok acc ->
    reaches_lookup GetCmdUnJail flags [a0] a0 acc
      (fun addr => NewMsgGovUnjail addr acc).

(** The builder a command hands to the broadcast routine. *)
Definition payer_or_default (a0 : string) : TxBuilder :=
  if AccountID_Empty (FeePayer txBldr0) then WithPayer txBldr0 a0
  else txBldr0.

(** The description a command wraps an account-id parse error in says
    that the account id is in error, and names the role of the account in
    [submit-proposal] and in [deposit]. *)
Definition names_role (c : Command) (description : string) : Prop :=
  (exists role, description = role +:+ " account id error") /\
  (Name c = "submit-proposal" ->
   description = "proposer account id error") /\
  (Name c = "deposit" -> description = "depositor account id error").

(** Where the error a command returns comes from. *)
Inductive error_origin (c : Command) (flags : gmap string string)
    (args : list string) : error -> Prop :=
| origin_arity e :
    Args c args = Some e -> error_origin c flags args e
| origin_flags e :
    c = GetCmdSubmitProposal ->
    parseSubmitProposalFlags flags = Err e -> error_origin c flags args e
| origin_proposal_deposit p e :
    c = GetCmdSubmitProposal ->
    parseSubmitProposalFlags flags = Ok p ->
    ParseCoins (Deposit p) = Err e -> error_origin c flags args e
| origin_coins a2 e :
    c = GetCmdDeposit ->
    args !! 2%nat = Some a2 ->
    ParseCoins a2 = Err e -> error_origin c flags args e
| origin_proposal_id a1 rest :
    args !! 1%nat = Some a1 ->
    strconv.is_decimal_uint64 a1 = false ->
    error_origin c flags args (Errorf ("proposal-id " +:+ a1 +:+ rest))
| origin_vote_option a2 e :
    c = GetCmdVote ->
    args !! 2%nat = Some a2 ->
    VoteOptionFromString (NormalizeVoteOption a2) = Err e ->
    error_origin c flags args e
| origin_account a0 cause description :
    args !! 0%nat = Some a0 ->
    NewAccountIDFromStr a0 = Err cause ->
    names_role c description ->
    error_origin c flags args (Wrap cause description)
| origin_query a0 acc mk cause :
    reaches_lookup c flags args a0 acc mk ->
    QueryAccountAuth cliCtx0 acc = Err cause ->
    error_origin c flags args
      (Wrap cause ("query account " +:+ AccountID_String acc +:+
                   " auth error"))
| origin_validate a0 acc mk addr e :
    reaches_lookup c flags args a0 acc mk ->
    QueryAccountAuth cliCtx0 acc = Ok addr ->
    ValidateBasic (mk addr) = Some e -> error_origin c flags args e
| origin_broadcast a0 acc mk addr e :
    reaches_lookup c flags args a0 acc mk ->
    QueryAccountAuth cliCtx0 acc = Ok addr ->
    ValidateBasic (mk addr) = None ->
    GenerateOrBroadcastMsgs (WithFromAccount cliCtx0 acc)
      (payer_or_default a0) [mk addr] = Some e ->
    error_origin c flags args e.

(** A run ends without an error only when nothing failed on its way:
    the flags and every argument were accepted, the account was resolved,
    the message passed its validation and the broadcast routine returned
    no error; each call into the framework is then made once. *)
Definition completes_only_on_success (c : Command)
    (flags : gmap string string) (args : list string) (r : Run unit)
  : Prop :=
  ending r = Done tt ->
  exists a0 acc mk addr,
    reaches_lookup c flags args a0 acc mk /\
    QueryAccountAuth cliCtx0 acc = Ok addr /\
    ValidateBasic (mk addr) = None /\
    GenerateOrBroadcastMsgs (WithFromAccount cliCtx0 acc)
      (payer_or_default a0) [mk addr] = None /\
    trace r = [EvQueryAccountAuth cliCtx0 acc; EvNewMsg (mk addr);
               EvValidateBasic (mk addr);
               EvGenerateOrBroadcastMsgs (WithFromAccount cliCtx0 acc)
                 (payer_or_default a0) [mk addr]].

(** The message [cobra.ExactArgs] fails with. *)
Definition arity_error (n received : nat) : error :=
  Errorf ("accepts " +:+ pretty n +:+ " arg(s), received "
          +:+ pretty received).

(** The run function of [c] is called on exactly [n] positional
    arguments; any other number ends the run with the arity error before
    anything else happens. *)
Definition arity_enforced (c : Command) (n : nat) : Prop :=
  forall flags args,
    execute c flags args =
      if Nat.eqb (length args) n then RunE c flags args
      else ([], Failed (arity_error n (length args))).

Ltac unfold_run :=
  unfold execute, GetCmdSubmitProposal, GetCmdDeposit, GetCmdVote,
    GetCmdUnJail, SubmitProposal_RunE, Deposit_RunE, Vote_RunE,
    UnJail_RunE, call_QueryAccountAuth, construct, call_ValidateBasic,
    call_GenerateOrBroadcastMsgs, default_payer, check, returning, index,
    emit, fail, panic, ExactArgs, trace, ending, query_error;
  cbn [Args RunE length Nat.eqb lookup list_lookup];
  unfold mbind, mret, Run_bind, Run_ret, id, cliCtx0, txBldr0.

Ltac run_step :=
  match goal with
  | |- context [match ?x with _ => _ end] =>
      lazymatch x with
      | context [match _ with _ => _ end] => fail
      | _ => destruct x eqn:?
      end
  | |- context [if ?x then _ else _] =>
      lazymatch x with
      | context [match _ with _ => _ end] => fail
      | _ => destruct x eqn:?
      end
  end.

(** Destructs the positional arguments up to the arity of the command
    and then every call whose result decides the path of the run. *)
Ltac split_args args :=
  destruct args as [|? [|? [|? [|? ?]]]].

Ltac all_runs := unfold_run; repeat run_step.

Lemma ParseUint_success s n :
  strconv.ParseUint s = (n, None) ->
  strconv.is_decimal_uint64 s = true /\ n = strconv.decimal_value s.
Proof.
  intros H. pose proof (strconv.ParseUint_spec s) as P.
  destruct (strconv.is_decimal_uint64 s); rewrite H in P.
  - inversion P. split; reflexivity.
  - now elim P.
Qed.

(** Replaces the number [ParseUint] returned by the value of the string. *)
Ltac parsed_id :=
  match goal with
  | Hp : strconv.ParseUint ?s = (_, None) |- _ =>
      let Hv := fresh "Hv" in
      let Hr := fresh "Hr" in
      apply ParseUint_success in Hp as [Hv ->];
      pose proof (strconv.decimal_value_range s Hv) as Hr
  end.

(** The run of a command whose inputs are accepted up to the account
    query: the query is issued; if it fails the run ends there; otherwise
    the message is constructed and validated; if the validation fails the
    run ends there; otherwise the message is handed to the broadcast
    routine, and the run ends as that routine does. *)
Lemma run_after_lookup c flags args a0 acc mk :
  reaches_lookup c flags args a0 acc mk ->
  execute c flags args =
    match QueryAccountAuth cliCtx0 acc with
    | Err e =>
        ([EvQueryAccountAuth cliCtx0 acc],
         Failed (Wrap e ("query account " +:+ AccountID_String acc +:+
                         " auth error")))
    | Ok addr =>
        match ValidateBasic (mk addr) with
        | Some e =>
            ([EvQueryAccountAuth cliCtx0 acc; EvNewMsg (mk addr);
              EvValidateBasic (mk addr)], Failed e)
        | None =>
            ([EvQueryAccountAuth cliCtx0 acc; EvNewMsg (mk addr);
              EvValidateBasic (mk addr);
              EvGenerateOrBroadcastMsgs (WithFromAccount cliCtx0 acc)
                (payer_or_default a0) [mk addr]],
             ending (returning
               (GenerateOrBroadcastMsgs (WithFromAccount cliCtx0 acc)
                  (payer_or_default a0) [mk addr])))
        end
    end.
Proof.
  intros H. destruct H; unfold_run; unfold payer_or_default, txBldr0;
    repeat match goal with
           | H : strconv.is_decimal_uint64 _ = true |- _ =>
               rewrite (strconv.ParseUint_ok _ H); clear H
           end;
    repeat match goal with
           | H : _ = Ok _ |- _ => rewrite H
           end;
    repeat run_step; reflexivity.
Qed.

Lemma reaches_lookup_first_argument c flags args a0 acc mk :
  reaches_lookup c flags args a0 acc mk ->
  args !! 0%nat = Some a0 /\ NewAccountIDFromStr a0 = Ok acc.
Proof. intros H. destruct H; split; (reflexivity || assumption). Qed.


Definition proposal_conflict_error (flag : string) : error :=
  Errorf ("--" +:+ flag +:+
          " flag provided alongside --proposal, which is a noop").

Lemma parseSubmitProposalFlags_conflict flags flag :
  GetString flags FlagProposal <> "" ->
  In flag ProposalFlags ->
  GetString flags flag <> "" ->
  exists flag', In flag' ProposalFlags /\ GetString flags flag' <> "" /\
    parseSubmitProposalFlags flags = Err (proposal_conflict_error flag').
Proof.
  intros Hfile Hin Hset. unfold parseSubmitProposalFlags.
  destruct (String.eqb (GetString flags FlagProposal) "") eqn:E.
  { apply String.eqb_eq in E. contradiction. }
  destruct (find _ ProposalFlags) as [flag'|] eqn:F.
  - apply find_some in F as [Hin' Hset'].
    exists flag'. split; [assumption|]. split; [|reflexivity].
    intros Heq. rewrite Heq in Hset'. discriminate.
  - exfalso. apply (find_none _ _ F) in Hin.
    apply negb_false_iff, String.eqb_eq in Hin. contradiction.
Qed.

(** C1. When [submit-proposal] is given the --proposal file path together
    with any of the four discrete proposal flags, the run ends with an
    error and with an empty trace: no account query, no message, no
    broadcast. With the one positional argument the command takes, the
    error names a discrete flag that was given. *)
Theorem C1_proposal_file_and_flags_rejected flags args flag :
  GetString flags FlagProposal <> "" ->
  In flag ProposalFlags ->
  GetString flags flag <> "" ->
  exists e,
    execute GetCmdSubmitProposal flags args = ([], Failed e) /\
    (length args = 1%nat ->
     exists flag', In flag' ProposalFlags /\ GetString flags flag' <> "" /\
                   e = proposal_conflict_error flag').
Proof.
  intros Hfile Hin Hset.
  destruct (parseSubmitProposalFlags_conflict flags flag Hfile Hin Hset)
    as (flag' & Hin' & Hset' & Hparse).
  split_args args; unfold_run; rewrite ?Hparse;
    (eexists; split; [reflexivity|]); intros Hlen; try discriminate.
  exists flag'. auto.
Qed.

(** C2. In [deposit] and in [vote] a proposal-id argument that is not a
    decimal unsigned 64-bit integer ends the run at once, with an error
    that names the argument and quotes it, and with an empty trace: no
    message is constructed. *)
Theorem C2_malformed_proposal_id_rejected flags a0 a1 a2 :
  strconv.is_decimal_uint64 a1 = false ->
  execute GetCmdDeposit flags [a0; a1; a2] =
    ([], Failed (Errorf ("proposal-id " +:+ a1 +:+
           " not a valid uint, please input a valid proposal-id"))) /\
  execute GetCmdVote flags [a0; a1; a2] =
    ([], Failed (Errorf ("proposal-id " +:+ a1 +:+
           " not a valid int, please input a valid proposal-id"))).
Proof.
  intros H. apply strconv.ParseUint_err in H.
  split; unfold_run;
    (destruct (strconv.ParseUint a1) as [n [e|]];
     [reflexivity | now elim H]).
Qed.

(** C3. In [vote] the option argument is normalized and the normalized
    string is mapped to the vote option. When that mapping fails the run
    ends with an error and an empty trace (no account query, no message,
    no broadcast); the error is the one of the mapping whenever the
    proposal-id before it was accepted. Every vote message that is
    constructed carries the option the normalized string maps to. *)
Theorem C3_unrecognized_vote_option_rejected flags a0 a1 a2 e :
  VoteOptionFromString (NormalizeVoteOption a2) = Err e ->
  execute GetCmdVote flags [a0; a1; a2] =
    ([], Failed (if strconv.is_decimal_uint64 a1 then e
                 else Errorf ("proposal-id " +:+ a1 +:+
                        " not a valid int, please input a valid proposal-id")))
  /\ forall flags' args m,
       In (EvNewMsg m) (trace (execute GetCmdVote flags' args)) ->
       exists addr voter proposalID option arg,
         m = NewKuMsgVote addr voter proposalID option /\
         args !! 2%nat = Some arg /\
         VoteOptionFromString (NormalizeVoteOption arg) = Ok option.
Proof.
  intros Hopt. split.
  - pose proof (strconv.ParseUint_spec a1) as Hp.
    unfold_run.
    destruct (strconv.is_decimal_uint64 a1).
    + rewrite Hp, Hopt. reflexivity.
    + destruct (strconv.ParseUint a1) as [n [e'|]];
        [reflexivity | now elim Hp].
  - clear. intros flags args m.
    split_args args; all_runs; cbn [fst In app];
      intros Hin; repeat destruct Hin as [Hin|Hin];
      try discriminate; try contradiction;
      inversion Hin; subst; eauto 10.
Qed.

(** Case analysis on a membership in a concrete trace. *)
Ltac in_trace H :=
  cbn [fst snd In app] in H;
  repeat (destruct H as [H|H]);
  try contradiction; try discriminate;
  try (inversion H; subst; clear H).

Ltac run_property :=
  let args := fresh "args" in
  intros ? args; split_args args; all_runs.

(** Splits a statement about the four commands into one goal for each
    command, property and path of the run, with the membership in the
    trace of the run analysed. *)
Ltac each_run :=
  unfold every_command; repeat apply conj;
  (let flags := fresh "flags" in
   let args := fresh "args" in
   intros flags args; try split; revert flags args);
  run_property; cbn [fst snd app]; unfold cliCtx0, txBldr0;
  intros; match goal with H : In _ _ |- _ => in_trace H end;
  try congruence.

(** What the events of a run tell about the account query: a run that
    constructs a message has issued one query before, for the account of
    its first argument; a run whose query fails ends there. *)
Lemma lookup_events_sound :
  every_command (fun c => forall flags args,
    resolves_once_before_message args (execute c flags args) /\
    failed_lookup_aborts (execute c flags args)).
Proof.
  unfold resolves_once_before_message, failed_lookup_aborts.
  each_run;
    eexists _, _, _, _;
    cbn [msg_account msg_address List.filter is_query lookup list_lookup];
    repeat split; eauto.
Qed.

(** What the events of a run tell about the validation: a broadcast is
    preceded by a passed validation, and a failed validation ends the
    run. *)
Lemma validation_events_sound :
  every_command (fun c => forall flags args,
    validated_before_broadcast (execute c flags args) /\
    invalid_message_stops (execute c flags args)).
Proof.
  unfold validated_before_broadcast, invalid_message_stops.
  each_run; cbn [In List.filter is_broadcast]; eauto 10.
  all: repeat split; [congruence | tauto].
Qed.

(** What a broadcast event tells about the builder. *)
Lemma payer_events_sound :
  every_command (fun c => forall flags args,
    payer_defaulted args (execute c flags args)).
Proof.
  unfold payer_defaulted.
  each_run;
    repeat match goal with
           | H : AccountID_Empty _ = _ |- _ => rewrite H
           end; eauto.
Qed.

(** What a broadcast event tells about a defaulted payer. *)
Lemma raw_payer_events_sound :
  every_command (fun c => forall flags args,
    payer_is_raw_argument args (execute c flags args)).
Proof.
  unfold payer_is_raw_argument.
  each_run; eexists _, _, _, _;
    cbn [msg_address lookup list_lookup]; repeat split; eauto.
Qed.

(** Joins, for each of the four commands, what the events of a run tell
    with what a run on accepted inputs does. *)
Ltac join_for_each_command sound :=
  let H := fresh "H" in
  unfold every_command; repeat apply conj; intros flags args;
  [ pose proof (proj1 sound flags args) as H
  | pose proof (proj1 (proj2 sound) flags args) as H
  | pose proof (proj1 (proj2 (proj2 sound)) flags args) as H
  | pose proof (proj2 (proj2 (proj2 sound)) flags args) as H ];
  repeat (split; [solve [exact H | apply H]|]).

(** C4. Each of the four commands, on inputs it accepts up to that point,
    issues the account query for the account parsed from its first
    argument, as the first event of the run and only once; when the query
    succeeds the message is constructed next, from that account and the
    address found; when the query fails the run ends there with the error
    of the query wrapped in "query account ... auth error", which quotes
    the account, and no message is constructed or broadcast. Conversely,
    every run that constructs a message has issued exactly one query
    before, and every run with a failed query ends that way. *)
Theorem C4_one_account_query_and_failure_aborts :
  every_command (fun c => forall flags args,
    resolves_once_before_message args (execute c flags args) /\
    failed_lookup_aborts (execute c flags args) /\
    forall a0 acc mk,
      reaches_lookup c flags args a0 acc mk ->
      (exists rest,
         trace (execute c flags args)
           = EvQueryAccountAuth cliCtx0 acc :: rest /\
         List.filter is_query rest = []) /\
      (forall addr,
         QueryAccountAuth cliCtx0 acc = Ok addr ->
         exists rest,
           trace (execute c flags args)
             = EvQueryAccountAuth cliCtx0 acc :: EvNewMsg (mk addr) :: rest)
      /\
      (forall e,
         QueryAccountAuth cliCtx0 acc = Err e ->
         execute c flags args =
           ([EvQueryAccountAuth cliCtx0 acc],
            Failed (Wrap e ("query account " +:+ AccountID_String acc +:+
                            " auth error"))))).
Proof.
  join_for_each_command lookup_events_sound;
    intros a0 acc mk Hr; rewrite (run_after_lookup _ _ _ _ _ _ Hr);
    (destruct (QueryAccountAuth cliCtx0 acc) as [addr|e] eqn:Hq;
     [destruct (ValidateBasic (mk addr)) eqn:Hv|]);
    cbn [trace fst]; repeat split;
    try (eexists; split; reflexivity);
    intros ? Heq; inversion Heq; subst; try reflexivity;
    eexists; reflexivity.
Qed.

(** C5. Each of the four commands, on inputs it accepts and with the
    account resolved, constructs its message and calls ValidateBasic on
    it; when the validation passes the message is handed to the broadcast
    routine as the next and last step and the command returns what that
    routine returns; when the validation fails the command returns the
    error of the validation and the broadcast routine is not called.
    Conversely, every run that reaches the broadcast routine does so with
    the one message it constructed and validated just before. *)
Theorem C5_validation_guards_broadcast :
  every_command (fun c => forall flags args,
    validated_before_broadcast (execute c flags args) /\
    invalid_message_stops (execute c flags args) /\
    forall a0 acc mk addr,
      reaches_lookup c flags args a0 acc mk ->
      QueryAccountAuth cliCtx0 acc = Ok addr ->
      (ValidateBasic (mk addr) = None ->
       execute c flags args =
         ([EvQueryAccountAuth cliCtx0 acc; EvNewMsg (mk addr);
           EvValidateBasic (mk addr);
           EvGenerateOrBroadcastMsgs (WithFromAccount cliCtx0 acc)
             (payer_or_default a0) [mk addr]],
          ending (returning
            (GenerateOrBroadcastMsgs (WithFromAccount cliCtx0 acc)
               (payer_or_default a0) [mk addr])))) /\
      (forall e,
         ValidateBasic (mk addr) = Some e ->
         execute c flags args =
           ([EvQueryAccountAuth cliCtx0 acc; EvNewMsg (mk addr);
             EvValidateBasic (mk addr)], Failed e))).
Proof.
  join_for_each_command validation_events_sound;
    intros a0 acc mk addr Hr Hq;
    rewrite (run_after_lookup _ _ _ _ _ _ Hr), Hq;
    (split; [intros Hv | intros e Hv]); rewrite Hv; reflexivity.
Qed.

(** C6. Each of the four commands, on inputs it accepts and with the
    account resolved and the message valid, hands to the broadcast routine
    the initial builder with the payer set from the first argument when
    the initial builder has an empty fee payer, and the initial builder
    unchanged when it has a fee payer. Conversely, the builder of every
    broadcast is obtained that way. *)
Theorem C6_fee_payer_defaulting :
  every_command (fun c => forall flags args,
    payer_defaulted args (execute c flags args) /\
    forall a0 acc mk addr,
      reaches_lookup c flags args a0 acc mk ->
      QueryAccountAuth cliCtx0 acc = Ok addr ->
      ValidateBasic (mk addr) = None ->
      args !! 0%nat = Some a0 /\
      In (EvGenerateOrBroadcastMsgs (WithFromAccount cliCtx0 acc)
            (if AccountID_Empty (FeePayer txBldr0)
             then WithPayer txBldr0 a0 else txBldr0)
            [mk addr])
         (trace (execute c flags args))).
Proof.
  join_for_each_command payer_events_sound;
    intros a0 acc mk addr Hr Hq Hv;
    (split; [apply (reaches_lookup_first_argument _ _ _ _ _ _ Hr)|]);
    rewrite (run_after_lookup _ _ _ _ _ _ Hr), Hq, Hv;
    cbn [trace fst In]; unfold payer_or_default; auto.
Qed.

(** C9. Each of the four commands, on inputs it accepts, with the account
    resolved to an address and the message valid, and with no fee payer in
    the initial builder, hands to the broadcast routine the builder whose
    payer is set from the first argument as it was typed; the address the
    account query returned for it is known at that point and is used for
    the message, not for the payer. Conversely, every broadcast with a
    defaulted payer is of that kind. *)
Theorem C9_payer_set_from_raw_argument :
  every_command (fun c => forall flags args,
    payer_is_raw_argument args (execute c flags args) /\
    forall a0 acc mk addr,
      reaches_lookup c flags args a0 acc mk ->
      QueryAccountAuth cliCtx0 acc = Ok addr ->
      ValidateBasic (mk addr) = None ->
      AccountID_Empty (FeePayer txBldr0) = true ->
      args !! 0%nat = Some a0 /\
      msg_address (mk addr) = addr /\
      In (EvGenerateOrBroadcastMsgs (WithFromAccount cliCtx0 acc)
            (WithPayer txBldr0 a0) [mk addr])
         (trace (execute c flags args))).
Proof.
  join_for_each_command raw_payer_events_sound;
    intros a0 acc mk addr Hr Hq Hv He;
    (split; [apply (reaches_lookup_first_argument _ _ _ _ _ _ Hr)|]);
    (split; [destruct Hr; reflexivity|]);
    rewrite (run_after_lookup _ _ _ _ _ _ Hr), Hq, Hv;
    cbn [trace fst In]; unfold payer_or_default; rewrite He; auto.
Qed.

(** C10. [deposit] and [vote] accept every decimal unsigned 64-bit
    integer as proposal-id: when the other arguments are accepted and the
    account is resolved, the message is constructed with the value of the
    argument as its proposal id. The strings 0 and 18446744073709551615
    are such integers, with the values 0 and 2^64 - 1. *)
Theorem C10_every_uint64_proposal_id_accepted flags a0 a1 a2 :
  strconv.is_decimal_uint64 a1 = true ->
  (forall amount acc addr,
     ParseCoins a2 = Ok amount ->
     NewAccountIDFromStr a0 = Ok acc ->
     QueryAccountAuth cliCtx0 acc = Ok addr ->
     In (EvNewMsg (NewKuMsgDeposit addr acc (strconv.decimal_value a1)
                                   amount))
        (trace (execute GetCmdDeposit flags [a0; a1; a2]))) /\
  (forall option acc addr,
     VoteOptionFromString (NormalizeVoteOption a2) = Ok option ->
     NewAccountIDFromStr a0 = Ok acc ->
     QueryAccountAuth cliCtx0 acc = Ok addr ->
     In (EvNewMsg (NewKuMsgVote addr acc (strconv.decimal_value a1)
                                option))
        (trace (execute GetCmdVote flags [a0; a1; a2]))) /\
  0 <= strconv.decimal_value a1 <= 2 ^ 64 - 1 /\
  strconv.is_decimal_uint64 "0" = true /\
  strconv.decimal_value "0" = 0 /\
  strconv.is_decimal_uint64 "18446744073709551615" = true /\
  strconv.decimal_value "18446744073709551615" = 2 ^ 64 - 1.
Proof.
  intros Hid. pose proof (strconv.ParseUint_ok a1 Hid) as Hp.
  split; [|split; [|split; [|repeat split]]].
  - intros amount acc addr Hc Ha Hq. unfold cliCtx0 in Hq.
    unfold_run. rewrite Hp, Hc, Ha, Hq.
    repeat run_step; cbn [fst app In]; auto.
  - intros option acc addr Ho Ha Hq. unfold cliCtx0 in Hq.
    unfold_run. rewrite Hp, Ho, Ha, Hq.
    repeat run_step; cbn [fst app In]; auto.
  - apply (strconv.decimal_value_range a1 Hid).
Qed.

(** C7, as the commands implement it. Every error a command returns is
    the outcome of the run (no run panics) and is one of: the arity error;
    the error of the flag parser, of the coin parser on the deposit given,
    of the vote-option mapping, of the validation of the message or of the
    broadcast routine, each returned unchanged; a message naming
    proposal-id and quoting the argument; the account-id parse error
    wrapped in a description that says the account id is in error; the
    account query error wrapped in a description that quotes the account.
    In [submit-proposal] and [deposit] the description of the account-id
    parse error names the role of the account: proposer, depositor.
    Nothing is retried or swallowed: a run ends without an error only
    when the flags and every argument were accepted and every call into
    the framework, each made once, succeeded. *)
Theorem C7_every_error_has_an_origin :
  every_command (fun c => forall flags args,
    (forall e, ending (execute c flags args) = Failed e ->
               error_origin c flags args e) /\
    ending (execute c flags args) <> Panicked /\
    completes_only_on_success c flags args (execute c flags args)).
Proof.
  unfold every_command, completes_only_on_success;
    repeat apply conj; intros flags args;
    (split; [intros e|split]).
  all: match goal with
       | |- ending (execute ?cmd ?f ?a) = Failed _ -> _ =>
           remember cmd as c0 eqn:Hc0; rewrite Hc0 at 1
       | |- ending (execute ?cmd ?f ?a) = Done _ -> _ =>
           let r := fresh "r" in
           set (r := execute cmd f a);
           remember cmd as c0 eqn:Hc0 in |- *; subst r
       | _ => idtac
       end.
  all: split_args args; all_runs; cbn [fst snd]; intros H;
    try discriminate H; try parsed_id.
  all: try (inversion H; subst e; clear H).
  all: try solve
      [ apply origin_arity; subst c0; reflexivity
      | eapply origin_flags; eassumption
      | eapply origin_proposal_deposit; eassumption
      | eapply origin_coins; [eassumption | reflexivity | eassumption]
      | eapply origin_proposal_id;
        [reflexivity | eapply strconv.ParseUint_fails; eassumption]
      | eapply origin_vote_option;
        [eassumption | reflexivity | eassumption]
      | eapply origin_account;
        [reflexivity | eassumption
        | subst c0; split;
          [ first [exists "proposer"; reflexivity
                  | exists "depositor"; reflexivity]
          | split; intros Hn;
            (reflexivity || (vm_compute in Hn; discriminate Hn)) ] ] ].
  all: try solve
      [ eapply origin_query;
        [subst c0; econstructor; eassumption | eassumption]
      | eapply origin_validate;
        [subst c0; econstructor; eassumption | eassumption
        | cbn beta; eassumption]
      | eapply origin_broadcast;
        [subst c0; econstructor; eassumption | eassumption
        | cbn beta; eassumption
        | unfold payer_or_default, txBldr0;
          repeat match goal with
                 | H : AccountID_Empty _ = _ |- _ => rewrite H
                 end; cbn beta; eassumption ] ].
  all: eexists _, _, _, _;
    (split; [subst c0; econstructor; eassumption|]);
    unfold payer_or_default, txBldr0;
    repeat match goal with
           | H : AccountID_Empty _ = _ |- _ => rewrite H
           end;
    cbn beta; repeat split; solve [eassumption | reflexivity].
Qed.

Lemma proposal_commands_keep pcmds : forall c,
  let c' := fold_left
              (fun c pcmd => AddCommand c (firstn 1 (PostCommands [pcmd])))
              pcmds c in
  Use c' = Use c /\ Args c' = Args c /\ RunE c' = RunE c.
Proof.
  induction pcmds as [|pcmd pcmds IH]; intros c; cbn [fold_left].
  - repeat split.
  - destruct (IH (AddCommand c (firstn 1 (PostCommands [pcmd]))))
      as (HU & HA & HR).
    cbv zeta. rewrite HU, HA, HR. repeat split.
Qed.

Lemma exact_args_enforced c n :
  Args c = ExactArgs n -> arity_enforced c n.
Proof.
  intros HA flags args. unfold execute, arity_error. rewrite HA.
  unfold ExactArgs. destruct (Nat.eqb (length args) n); reflexivity.
Qed.

(** C8. The command group has exactly four subcommands: deposit, vote,
    unjail and submit-proposal. Each runs the run function of its
    constructor, and only on exactly 3, 3, 1 and 1 positional arguments:
    with any other number the run ends with the arity error before the
    run function is called. *)
Theorem C8_four_subcommands_with_fixed_arity storeKey pcmds :
  exists d v u s,
    Commands (GetTxCmd storeKey pcmds) = [d; v; u; s] /\
    (Name d = "deposit" /\ RunE d = Deposit_RunE /\
     arity_enforced d 3) /\
    (Name v = "vote" /\ RunE v = Vote_RunE /\ arity_enforced v 3) /\
    (Name u = "unjail" /\ RunE u = UnJail_RunE /\ arity_enforced u 1) /\
    (Name s = "submit-proposal" /\ RunE s = SubmitProposal_RunE /\
     arity_enforced s 1).
Proof.
  unfold GetTxCmd, PostCommands at 2, AddCommand at 2.
  cbn [Commands map app].
  eexists _, _, _, _. split; [reflexivity|].
  pose proof (proposal_commands_keep pcmds GetCmdSubmitProposal)
    as (HU & HA & HR).
  unfold Name. cbn [AddFlags Use RunE] in *.
  repeat split; try reflexivity;
    try (apply exact_args_enforced; reflexivity).
  - transitivity (first_word (Use GetCmdSubmitProposal));
      [f_equal; exact HU | reflexivity].
  - exact HR.
  - apply exact_args_enforced. cbn [Args AddFlags]. exact HA.
Qed.

(** ** Further properties of the run functions *)

(** What a command returns for the error value of its last call. *)
Definition result_of (err : option error) : outcome unit :=
  match err with
  | None => Done tt
  | Some e => Failed e
  end.

(** The runs a command can make. A run stops before anything is looked up;
    or after the account query failed; or after the message failed its
    validation; or it hands the message to the broadcast routine, with the
    context whose "from" account is the account of the message, and ends
    the way that routine does. The query is made with the initial context,
    for the account the first argument parses to. *)
Inductive run_shape (args : list string) : Run unit -> Prop :=
| shape_early e :
    run_shape args ([], Failed e)
| shape_lookup_failed a0 acc e :
    args !! 0%nat = Some a0 ->
    NewAccountIDFromStr a0 = Ok acc ->
    QueryAccountAuth cliCtx0 acc = Err e ->
    run_shape args
      ([EvQueryAccountAuth cliCtx0 acc],
       Failed (Wrap e ("query account " +:+ AccountID_String acc +:+
                       " auth error")))
| shape_invalid a0 acc addr m e :
    args !! 0%nat = Some a0 ->
    NewAccountIDFromStr a0 = Ok acc ->
    QueryAccountAuth cliCtx0 acc = Ok addr ->
    msg_account m = acc -> msg_address m = addr ->
    ValidateBasic m = Some e ->
    run_shape args
      ([EvQueryAccountAuth cliCtx0 acc; EvNewMsg m; EvValidateBasic m],
       Failed e)
| shape_broadcast a0 acc addr m bldr o :
    args !! 0%nat = Some a0 ->
    NewAccountIDFromStr a0 = Ok acc ->
    QueryAccountAuth cliCtx0 acc = Ok addr ->
    msg_account m = acc -> msg_address m = addr ->
    ValidateBasic m = None ->
    result_of (GenerateOrBroadcastMsgs (WithFromAccount cliCtx0 acc) bldr
                                       [m]) = o ->
    run_shape args
      ([EvQueryAccountAuth cliCtx0 acc; EvNewMsg m; EvValidateBasic m;
        EvGenerateOrBroadcastMsgs (WithFromAccount cliCtx0 acc) bldr [m]],
       o).

(** Every run of each of the four commands has one of the four shapes
    above: at most one query, one message, one validation and one
    broadcast, in this order; the query uses the initial context and the
    broadcast the context with the "from" account set; and a run that
    reaches the broadcast routine returns exactly what that routine
    returns. *)
Theorem run_has_one_of_four_shapes :
  every_command (fun c => forall flags args,
    run_shape args (execute c flags args)).
Proof.
  unfold every_command; repeat apply conj; intros flags args;
    split_args args; all_runs;
    solve
      [ apply shape_early
      | eapply shape_lookup_failed; [reflexivity | eassumption..]
      | eapply shape_invalid;
        [reflexivity | eassumption | eassumption | reflexivity
        | reflexivity | eassumption]
      | eapply shape_broadcast;
        [reflexivity | eassumption | eassumption | reflexivity
        | reflexivity | eassumption
        | match goal with H : GenerateOrBroadcastMsgs _ _ _ = _ |- _ =>
            unfold cliCtx0; rewrite H; reflexivity end] ].
Qed.

(** Every message [deposit] constructs is a deposit message built from
    its three arguments: the account the first parses to and the address
    it resolves to, the value of the second, which is a decimal unsigned
    64-bit integer, and the coins the third parses to. *)
Theorem deposit_message_from_arguments flags args m :
  In (EvNewMsg m) (trace (execute GetCmdDeposit flags args)) ->
  exists a0 a1 a2 acc addr amount,
    args = [a0; a1; a2] /\
    strconv.is_decimal_uint64 a1 = true /\
    ParseCoins a2 = Ok amount /\
    NewAccountIDFromStr a0 = Ok acc /\
    QueryAccountAuth cliCtx0 acc = Ok addr /\
    m = NewKuMsgDeposit addr acc (strconv.decimal_value a1) amount /\
    0 <= strconv.decimal_value a1 <= strconv.maxUint64.
Proof.
  split_args args; all_runs; cbn [fst app]; intros Hin; in_trace Hin;
    parsed_id; eexists _, _, _, _, _, _;
    repeat (split; [solve [reflexivity | eassumption]|]); assumption.
Qed.

(** Every message [vote] constructs is a vote message built from its
    three arguments: the account and its address, the value of the second
    argument, which is a decimal unsigned 64-bit integer, and the option
    the normalized third argument maps to. *)
Theorem vote_message_from_arguments flags args m :
  In (EvNewMsg m) (trace (execute GetCmdVote flags args)) ->
  exists a0 a1 a2 acc addr option,
    args = [a0; a1; a2] /\
    strconv.is_decimal_uint64 a1 = true /\
    VoteOptionFromString (NormalizeVoteOption a2) = Ok option /\
    NewAccountIDFromStr a0 = Ok acc /\
    QueryAccountAuth cliCtx0 acc = Ok addr /\
    m = NewKuMsgVote addr acc (strconv.decimal_value a1) option /\
    0 <= strconv.decimal_value a1 <= strconv.maxUint64.
Proof.
  split_args args; all_runs; cbn [fst app]; intros Hin; in_trace Hin;
    parsed_id; eexists _, _, _, _, _, _;
    repeat (split; [solve [reflexivity | eassumption]|]); assumption.
Qed.

(** Every message [submit-proposal] constructs is a proposal message with
    the content made of the title, description and type of the parsed
    proposal, the coins its deposit string parses to, and the account of
    the one argument with the address it resolves to. *)
Theorem proposal_message_from_flags flags args m :
  In (EvNewMsg m) (trace (execute GetCmdSubmitProposal flags args)) ->
  exists a0 p amount acc addr,
    args = [a0] /\
    parseSubmitProposalFlags flags = Ok p /\
    ParseCoins (Deposit p) = Ok amount /\
    NewAccountIDFromStr a0 = Ok acc /\
    QueryAccountAuth cliCtx0 acc = Ok addr /\
    m = NewKuMsgSubmitProposal addr
          (ContentFromProposalType (Title p) (Description p) (Type_ p))
          amount acc.
Proof.
  split_args args; all_runs; cbn [fst app]; intros Hin; in_trace Hin;
    eexists _, _, _, _, _;
    repeat (split; [solve [reflexivity | eassumption]|]); reflexivity.
Qed.

(** Every message [unjail] constructs is an unjail message for the account
    its one argument parses to, with the address it resolves to. *)
Theorem unjail_message_from_argument flags args m :
  In (EvNewMsg m) (trace (execute GetCmdUnJail flags args)) ->
  exists a0 acc addr,
    args = [a0] /\
    NewAccountIDFromStr a0 = Ok acc /\
    QueryAccountAuth cliCtx0 acc = Ok addr /\
    m = NewMsgGovUnjail addr acc.
Proof.
  split_args args; all_runs; cbn [fst app]; intros Hin; in_trace Hin;
    eexists _, _, _;
    repeat (split; [solve [reflexivity | eassumption]|]); reflexivity.
Qed.

(** In [deposit] the coins are parsed before the account id is looked at:
    with an accepted proposal-id, a deposit string that does not parse
    ends the run with the error of the coin parser, unchanged, whatever
    the first argument is, and nothing is queried or constructed. *)
Theorem deposit_coin_error_comes_first flags a0 a1 a2 e :
  strconv.is_decimal_uint64 a1 = true ->
  ParseCoins a2 = Err e ->
  execute GetCmdDeposit flags [a0; a1; a2] = ([], Failed e).
Proof.
  intros Hid Hc. unfold_run.
  rewrite (strconv.ParseUint_ok a1 Hid), Hc. reflexivity.
Qed.

(** In [submit-proposal] the deposit of the parsed proposal is checked
    before the account id is looked at: a deposit string that does not
    parse ends the run with the error of the coin parser, unchanged,
    whatever the argument is, and nothing is queried or constructed. *)
Theorem proposal_deposit_error_comes_first flags a0 p e :
  parseSubmitProposalFlags flags = Ok p ->
  ParseCoins (Deposit p) = Err e ->
  execute GetCmdSubmitProposal flags [a0] = ([], Failed e).
Proof.
  intros Hp Hc. unfold_run. rewrite Hp, Hc. reflexivity.
Qed.

(** In each of the four commands a first argument that does not parse as
    an account id ends the run with an error and an empty trace, whatever
    the other arguments and flags are: no query is issued for it. *)
Theorem unparsable_account_never_queried :
  every_command (fun c => forall flags args a0 cause,
    args !! 0%nat = Some a0 ->
    NewAccountIDFromStr a0 = Err cause ->
    trace (execute c flags args) = [] /\
    exists e, ending (execute c flags args) = Failed e).
Proof.
  unfold every_command; repeat apply conj; intros flags args a0 cause;
    split_args args; all_runs; cbn [fst snd];
    intros Ha0 Hacc; try discriminate Ha0;
    inversion Ha0; subst; try congruence;
    (split; [reflexivity | eexists; reflexivity]).
Qed.

(** *** The proposal-id argument *)

Lemma ParseUint_leading_zero s :
  s <> "" -> strconv.ParseUint ("0" +:+ s) = strconv.ParseUint s.
Proof.
  destruct s as [|ch rest]; [contradiction|]. intros _. reflexivity.
Qed.

Lemma all_decimal_digits_app pre ch post :
  strconv.is_decimal_digit ch = false ->
  strconv.all_decimal_digits (pre +:+ String ch post) = false.
Proof.
  intros Hch. induction pre as [|c pre IH].
  - change (strconv.is_decimal_digit ch
            && strconv.all_decimal_digits post = false).
    rewrite Hch. reflexivity.
  - change (strconv.is_decimal_digit c
            && strconv.all_decimal_digits (pre +:+ String ch post) = false).
    rewrite IH. apply andb_false_r.
Qed.

Lemma not_decimal_uint64 pre ch post :
  strconv.is_decimal_digit ch = false ->
  strconv.is_decimal_uint64 (pre +:+ String ch post) = false.
Proof.
  intros Hch. unfold strconv.is_decimal_uint64.
  rewrite (all_decimal_digits_app pre ch post Hch).
  rewrite andb_false_r. reflexivity.
Qed.

(** Leading zeros do not matter: [deposit] and [vote] run on a proposal-id
    with a zero put in front exactly as on the proposal-id itself. *)
Theorem leading_zero_same_run flags a0 s a2 :
  strconv.is_decimal_uint64 s = true ->
  strconv.decimal_value ("0" +:+ s) = strconv.decimal_value s /\
  execute GetCmdDeposit flags [a0; "0" +:+ s; a2] =
    execute GetCmdDeposit flags [a0; s; a2] /\
  execute GetCmdVote flags [a0; "0" +:+ s; a2] =
    execute GetCmdVote flags [a0; s; a2].
Proof.
  intros Hid.
  assert (Hne : s <> "") by (intros ->; discriminate Hid).
  pose proof (ParseUint_leading_zero s Hne) as Hz.
  pose proof (strconv.ParseUint_ok s Hid) as Hp.
  split; [reflexivity|].
  split; unfold_run; rewrite Hz, Hp; reflexivity.
Qed.

(** A proposal-id with any character other than the digits 0 to 9 in it (a
    sign, a space, an underscore, a letter) is rejected by [deposit] and
    by [vote] with the proposal-id error that quotes it, before anything
    else happens. *)
Theorem non_digit_proposal_id_rejected flags a0 pre ch post a2 :
  strconv.is_decimal_digit ch = false ->
  execute GetCmdDeposit flags [a0; pre +:+ String ch post; a2] =
    ([], Failed (Errorf ("proposal-id " +:+ (pre +:+ String ch post) +:+
           " not a valid uint, please input a valid proposal-id"))) /\
  execute GetCmdVote flags [a0; pre +:+ String ch post; a2] =
    ([], Failed (Errorf ("proposal-id " +:+ (pre +:+ String ch post) +:+
           " not a valid int, please input a valid proposal-id"))).
Proof.
  intros Hch.
  pose proof (strconv.ParseUint_err _ (not_decimal_uint64 pre ch post Hch))
    as Hp.
  split; unfold_run;
    (destruct (strconv.ParseUint (pre +:+ String ch post)) as [n [e|]];
     [reflexivity | now elim Hp]).
Qed.

(** *** The run functions without the check of the arguments *)

(** Each run function reads only the arguments its command declares:
    further arguments change nothing, and with at least that many
    arguments it does not panic. *)
Theorem surplus_arguments_ignored flags :
  (forall a0 rest,
     SubmitProposal_RunE flags (a0 :: rest) = SubmitProposal_RunE flags [a0]
     /\ ending (SubmitProposal_RunE flags (a0 :: rest)) <> Panicked) /\
  (forall a0 a1 a2 rest,
     Deposit_RunE flags (a0 :: a1 :: a2 :: rest)
       = Deposit_RunE flags [a0; a1; a2]
     /\ ending (Deposit_RunE flags (a0 :: a1 :: a2 :: rest)) <> Panicked) /\
  (forall a0 a1 a2 rest,
     Vote_RunE flags (a0 :: a1 :: a2 :: rest) = Vote_RunE flags [a0; a1; a2]
     /\ ending (Vote_RunE flags (a0 :: a1 :: a2 :: rest)) <> Panicked) /\
  (forall a0 rest,
     UnJail_RunE flags (a0 :: rest) = UnJail_RunE flags [a0]
     /\ ending (UnJail_RunE flags (a0 :: rest)) <> Panicked).
Proof.
  repeat apply conj; intros; (split; [reflexivity|]);
    all_runs; cbn [snd]; discriminate.
Qed.

(** Without the check of the number of arguments the run functions index
    past the end of the argument list: [deposit] and [vote] panic at once
    on fewer than two arguments, and on two arguments as soon as the
    proposal-id is accepted; [unjail] panics at once on no argument. *)
Theorem missing_argument_panics flags args :
  (length args < 2)%nat ->
  Deposit_RunE flags args = ([], Panicked) /\
  Vote_RunE flags args = ([], Panicked) /\
  UnJail_RunE flags [] = ([], Panicked) /\
  (forall a0 a1, strconv.is_decimal_uint64 a1 = true ->
     Deposit_RunE flags [a0; a1] = ([], Panicked) /\
     Vote_RunE flags [a0; a1] = ([], Panicked)).
Proof.
  intros Hlen.
  destruct args as [|a0 [|a1 args]]; cbn [length] in Hlen; try lia;
    (repeat split; try reflexivity;
     intros; unfold_run;
     match goal with H : strconv.is_decimal_uint64 _ = true |- _ =>
       rewrite (strconv.ParseUint_ok _ H) end; reflexivity).
Qed.

(** *** The command tree *)

Lemma proposal_commands_mount pcmds : forall c,
  let c' := fold_left
              (fun c pcmd => AddCommand c (firstn 1 (PostCommands [pcmd])))
              pcmds c in
  Commands c' = (Commands c ++ PostCommands pcmds)%list /\
  Flags c' = Flags c.
Proof.
  induction pcmds as [|pcmd pcmds IH]; intros c; cbn [fold_left].
  - cbv zeta. unfold PostCommands. cbn [map]. rewrite app_nil_r. auto.
  - destruct (IH (AddCommand c (firstn 1 (PostCommands [pcmd]))))
      as (HC & HF).
    cbv zeta. rewrite HC, HF. unfold PostCommands. cbn.
    rewrite <- app_assoc. auto.
Qed.

(** The proposal child commands given to [GetTxCmd] are mounted under
    [submit-proposal] and nowhere else: the usage lines of its subcommands
    are those of the commands given, and [deposit], [vote] and [unjail]
    have no subcommands. *)
Theorem proposal_commands_mounted storeKey pcmds :
  exists d v u s,
    Commands (GetTxCmd storeKey pcmds) = [d; v; u; s] /\
    Name s = "submit-proposal" /\
    Permutation (map Use (Commands s)) (map Use pcmds) /\
    length (Commands s) = length pcmds /\
    Name d = "deposit" /\ Commands d = [] /\
    Name v = "vote" /\ Commands v = [] /\
    Name u = "unjail" /\ Commands u = [].
Proof.
  pose proof (proposal_commands_mount pcmds GetCmdSubmitProposal)
    as (HC & _).
  pose proof (proposal_commands_keep pcmds GetCmdSubmitProposal)
    as (HU & _).
  eexists _, _, _, _. split; [reflexivity|].
  unfold Name. cbn [AddFlags Commands Use] in *. rewrite HC.
  split; [transitivity (first_word (Use GetCmdSubmitProposal));
          [f_equal; exact HU | reflexivity]|].
  change (Commands GetCmdSubmitProposal ++ PostCommands pcmds)%list
    with (PostCommands pcmds).
  unfold PostCommands. rewrite map_map, length_map.
  repeat split; reflexivity.
Qed.

(** *** strconv.ParseUint on digits, signs and overflow *)

Lemma ParseUint_loop_digits s : forall n,
  0 <= n <= strconv.maxUint64 ->
  strconv.all_decimal_digits s = true ->
  strconv.ParseUint_loop s n =
    if strconv.decimal_value_from n s <=? strconv.maxUint64
    then (strconv.decimal_value_from n s, None)
    else (strconv.maxUint64, Some strconv.ErrRange).
Proof.
  induction s as [|ch rest IH]; intros n Hn Hd.
  - simpl. destruct (n <=? strconv.maxUint64) eqn:E; [reflexivity|].
    apply Z.leb_gt in E. lia.
  - cbn [strconv.all_decimal_digits] in Hd.
    apply andb_prop in Hd as [Hc Hrest].
    unfold strconv.is_decimal_digit in Hc.
    cbn [strconv.ParseUint_loop strconv.decimal_value_from]. rewrite Hc.
    apply andb_prop in Hc as [Hlo Hhi]. apply Z.leb_le in Hlo, Hhi.
    set (d := strconv.byte_of ch - 48) in *.
    assert (Hd : 0 <= d <= 9) by (subst d; lia).
    replace (strconv.base <=? d) with false
      by (symmetry; apply Z.leb_gt; unfold strconv.base; lia).
    assert (Hmax : strconv.maxVal = strconv.maxUint64) by reflexivity.
    assert (Hcut : strconv.cutoff = 1844674407370955162) by reflexivity.
    assert (Hmx : strconv.maxUint64 = 18446744073709551615) by reflexivity.
    assert (Hbig : n * 10 + d > strconv.maxUint64 ->
                   (strconv.decimal_value_from (n * 10 + d) rest
                    <=? strconv.maxUint64) = false).
    { intros Hover.
      pose proof (strconv.decimal_value_from_mono rest (n * 10 + d)
                    ltac:(lia) Hrest) as Hm.
      apply Z.leb_gt. lia. }
    rewrite Hmax.
    destruct (strconv.cutoff <=? n) eqn:Hcn.
    + apply Z.leb_le in Hcn. rewrite Hbig by lia. reflexivity.
    + apply Z.leb_gt in Hcn.
      assert (Hw : strconv.wrap64 (n * strconv.base) = n * 10).
      { unfold strconv.wrap64, strconv.base. apply Z.mod_small. lia. }
      rewrite Hw.
      destruct (Z_le_gt_dec (n * 10 + d) strconv.maxUint64) as [Hfit|Hover].
      * assert (Hw1 : strconv.wrap64 (n * 10 + d) = n * 10 + d).
        { unfold strconv.wrap64. apply Z.mod_small. lia. }
        rewrite Hw1.
        replace ((n * 10 + d <? n * 10)
                 || (strconv.maxUint64 <? n * 10 + d)) with false
          by (symmetry; apply orb_false_iff; split; apply Z.ltb_ge; lia).
        apply (IH (n * 10 + d)); [lia|assumption].
      * assert (Hw1 : strconv.wrap64 (n * 10 + d) = n * 10 + d - 2 ^ 64).
        { unfold strconv.wrap64. symmetry.
          apply (Z.mod_unique _ _ 1); lia. }
        rewrite Hw1, Hbig by lia.
        replace (n * 10 + d - 2 ^ 64 <? n * 10) with true
          by (symmetry; apply Z.ltb_lt; lia).
        reflexivity.
Qed.

(** On a non-empty string of decimal digits [ParseUint] returns the value
    of the string when it fits in 64 bits, and otherwise the largest
    unsigned 64-bit integer together with the range error. *)
Theorem ParseUint_on_digits s :
  s <> "" ->
  strconv.all_decimal_digits s = true ->
  strconv.ParseUint s =
    if strconv.decimal_value s <=? strconv.maxUint64
    then (strconv.decimal_value s, None)
    else (strconv.maxUint64, Some strconv.ErrRange).
Proof.
  intros Hne Hd. unfold strconv.ParseUint, strconv.decimal_value.
  destruct (String.eqb s "") eqn:E.
  { apply String.eqb_eq in E. contradiction. }
  apply ParseUint_loop_digits; [unfold strconv.maxUint64; lia|assumption].
Qed.

Lemma ParseUint_loop_error_value s : forall n v e,
  strconv.ParseUint_loop s n = (v, Some e) ->
  v = match e with
      | strconv.ErrSyntax => 0
      | strconv.ErrRange => strconv.maxUint64
      end.
Proof.
  induction s as [|ch rest IH]; intros n v e H;
    cbn [strconv.ParseUint_loop] in H.
  - discriminate.
  - repeat (match type of H with
            | context [if ?c then _ else _] => destruct c
            end; cbv beta iota zeta in H);
      try (inversion H; subst; reflexivity); eauto.
Qed.

(** Whenever [ParseUint] reports an error, the number it returns with it
    is 0 for a syntax error and the largest unsigned 64-bit integer for a
    range error; a string that is empty or starts with a character that
    is not a digit, such as a sign, is a syntax error. *)
Theorem ParseUint_error_value s v e :
  strconv.ParseUint s = (v, Some e) ->
  v = match e with
      | strconv.ErrSyntax => 0
      | strconv.ErrRange => strconv.maxUint64
      end /\
  strconv.ParseUint "" = (0, Some strconv.ErrSyntax) /\
  (forall ch rest, strconv.is_decimal_digit ch = false ->
     strconv.ParseUint (String ch rest) = (0, Some strconv.ErrSyntax)).
Proof.
  intros H. repeat split.
  - unfold strconv.ParseUint in H.
    destruct (String.eqb s "").
    + inversion H; subst. reflexivity.
    + eapply ParseUint_loop_error_value; eassumption.
  - intros ch rest Hch. unfold strconv.is_decimal_digit in Hch.
    unfold strconv.ParseUint. cbn [String.eqb strconv.ParseUint_loop].
    rewrite Hch.
    destruct ((97 <=? strconv.lower (strconv.byte_of ch))
              && (strconv.lower (strconv.byte_of ch) <=? 122)) eqn:Hlet.
    + rewrite (strconv.lower_not_digit _ (strconv.byte_of_range ch)
                 Hch Hlet). reflexivity.
    + reflexivity.
Qed.

End Properties.

(** ** The commands on concrete command lines *)

(** Whether [sub] occurs in [s]. *)
Fixpoint contains (sub s : string) : bool :=
  String.prefix sub s ||
  match s with
  | EmptyString => false
  | String _ rest => contains sub rest
  end.

Definition is_wrapped (e : error) : bool :=
  match e with
  | Wrap _ _ => true
  | Errorf _ => false
  end.

(** The sample framework with no fee payer on the command line, and the
    one where the fee payer [bob] was given. *)
#[local] Existing Instance Sample.types.
#[local] Instance no_payer : ChainAPI := Sample.api "".
Definition payer_bob : ChainAPI := Sample.api "bob".

(** [submit-proposal jack --proposal=proposal.json --deposit=10test]. *)
Lemma C1_witness :
  let flags := Sample.flags_of [("proposal", "proposal.json");
                                ("deposit", "10test")] in
  GetString flags FlagProposal <> "" /\
  In FlagDeposit ProposalFlags /\
  GetString flags FlagDeposit <> "" /\
  exists e,
    execute GetCmdSubmitProposal flags ["jack"] = ([], Failed e) /\
    (length ["jack"] = 1%nat ->
     exists flag', In flag' ProposalFlags /\ GetString flags flag' <> "" /\
                   e = proposal_conflict_error flag').
Proof.
  intros flags.
  assert (H1 : GetString flags FlagProposal <> "")
    by (vm_compute; discriminate).
  assert (H2 : In FlagDeposit ProposalFlags) by (simpl; tauto).
  assert (H3 : GetString flags FlagDeposit <> "")
    by (vm_compute; discriminate).
  repeat (split; [assumption|]).
  exact (C1_proposal_file_and_flags_rejected flags ["jack"] FlagDeposit
           H1 H2 H3).
Defined.

(** [deposit jack 12x 10stake] and [vote jack 12x 10stake]. *)
Lemma C2_witness :
  strconv.is_decimal_uint64 "12x" = false /\
  execute GetCmdDeposit ∅ ["jack"; "12x"; "10stake"] =
    ([], Failed (Errorf ("proposal-id " +:+ "12x" +:+
           " not a valid uint, please input a valid proposal-id"))) /\
  execute GetCmdVote ∅ ["jack"; "12x"; "10stake"] =
    ([], Failed (Errorf ("proposal-id " +:+ "12x" +:+
           " not a valid int, please input a valid proposal-id"))).
Proof.
  split; [reflexivity|].
  apply (C2_malformed_proposal_id_rejected ∅ "jack" "12x" "10stake").
  reflexivity.
Defined.

(** [vote jack 1 maybe]. *)
Lemma C3_witness :
  VoteOptionFromString (NormalizeVoteOption "maybe") =
    Err (Errorf "'' is not a valid vote option") /\
  execute GetCmdVote ∅ ["jack"; "1"; "maybe"] =
    ([], Failed (Errorf "'' is not a valid vote option")).
Proof.
  split; [reflexivity|].
  apply (C3_unrecognized_vote_option_rejected ∅ "jack" "1" "maybe"
           (Errorf "'' is not a valid vote option")).
  reflexivity.
Defined.

(** [deposit jack 1 10stake], whose account resolves, and [unjail nobody],
    whose account query fails. *)
Lemma C4_witness :
  let mk := fun addr => NewKuMsgDeposit addr "jack"
                          (strconv.decimal_value "1") "10stake" in
  reaches_lookup GetCmdDeposit ∅ ["jack"; "1"; "10stake"] "jack" "jack" mk /\
  QueryAccountAuth cliCtx0 "jack" = Ok "addr:jack" /\
  (exists rest,
     trace (execute GetCmdDeposit ∅ ["jack"; "1"; "10stake"])
       = EvQueryAccountAuth cliCtx0 "jack"
         :: EvNewMsg (NewKuMsgDeposit "addr:jack" "jack" 1 "10stake")
         :: rest) /\
  reaches_lookup GetCmdUnJail ∅ ["nobody"] "nobody" "nobody"
    (fun addr => NewMsgGovUnjail addr "nobody") /\
  QueryAccountAuth cliCtx0 "nobody" = Err (Errorf "account not found") /\
  execute GetCmdUnJail ∅ ["nobody"] =
    ([EvQueryAccountAuth cliCtx0 "nobody"],
     Failed (Wrap (Errorf "account not found")
                  "query account nobody auth error")).
Proof.
  intros mk.
  assert (Hr1 : reaches_lookup GetCmdDeposit ∅ ["jack"; "1"; "10stake"]
                  "jack" "jack" mk)
    by (apply reaches_deposit; reflexivity).
  assert (Hr2 : reaches_lookup GetCmdUnJail ∅ ["nobody"] "nobody" "nobody"
                  (fun addr => NewMsgGovUnjail addr "nobody"))
    by (apply reaches_unjail; reflexivity).
  destruct C4_one_account_query_and_failure_aborts as (_ & Hd & _ & Hu).
  destruct (Hd ∅ ["jack"; "1"; "10stake"]) as (_ & _ & Hpos1).
  destruct (Hpos1 _ _ _ Hr1) as (_ & Hmsg & _).
  destruct (Hu ∅ ["nobody"]) as (_ & _ & Hpos2).
  destruct (Hpos2 _ _ _ Hr2) as (_ & _ & Hfail).
  split; [exact Hr1|]. split; [reflexivity|].
  split; [exact (Hmsg "addr:jack" eq_refl)|].
  split; [exact Hr2|]. split; [reflexivity|].
  exact (Hfail (Errorf "account not found") eq_refl).
Defined.

(** [deposit jack 1 10stake], whose message is valid and is broadcast, and
    [vote ghost 1 yes], whose account resolves to the empty address so that
    the message fails its validation. *)
Lemma C5_witness :
  let m := NewKuMsgDeposit "addr:jack" "jack" 1 "10stake" in
  let v := NewKuMsgVote "" "ghost" 1 OptionYes in
  reaches_lookup GetCmdDeposit ∅ ["jack"; "1"; "10stake"] "jack" "jack"
    (fun addr => NewKuMsgDeposit addr "jack" (strconv.decimal_value "1")
                                 "10stake") /\
  QueryAccountAuth cliCtx0 "jack" = Ok "addr:jack" /\
  ValidateBasic m = None /\
  execute GetCmdDeposit ∅ ["jack"; "1"; "10stake"] =
    ([EvQueryAccountAuth cliCtx0 "jack"; EvNewMsg m; EvValidateBasic m;
      EvGenerateOrBroadcastMsgs (Some "jack") "jack" [m]], Done tt) /\
  reaches_lookup GetCmdVote ∅ ["ghost"; "1"; "yes"] "ghost" "ghost"
    (fun addr => NewKuMsgVote addr "ghost" (strconv.decimal_value "1")
                              OptionYes) /\
  QueryAccountAuth cliCtx0 "ghost" = Ok "" /\
  ValidateBasic v = Some (Errorf "missing address") /\
  execute GetCmdVote ∅ ["ghost"; "1"; "yes"] =
    ([EvQueryAccountAuth cliCtx0 "ghost"; EvNewMsg v; EvValidateBasic v],
     Failed (Errorf "missing address")).
Proof.
  intros m v.
  assert (Hr1 : reaches_lookup GetCmdDeposit ∅ ["jack"; "1"; "10stake"]
                  "jack" "jack"
                  (fun addr => NewKuMsgDeposit addr "jack"
                                 (strconv.decimal_value "1") "10stake"))
    by (apply reaches_deposit; reflexivity).
  assert (Hr2 : reaches_lookup GetCmdVote ∅ ["ghost"; "1"; "yes"]
                  "ghost" "ghost"
                  (fun addr => NewKuMsgVote addr "ghost"
                                 (strconv.decimal_value "1") OptionYes))
    by (apply reaches_vote; reflexivity).
  destruct C5_validation_guards_broadcast as (_ & Hd & Hv & _).
  destruct (Hd ∅ ["jack"; "1"; "10stake"]) as (_ & _ & Hpos1).
  destruct (Hpos1 _ _ _ "addr:jack" Hr1 eq_refl) as (Hvalid & _).
  destruct (Hv ∅ ["ghost"; "1"; "yes"]) as (_ & _ & Hpos2).
  destruct (Hpos2 _ _ _ "" Hr2 eq_refl) as (_ & Hinvalid).
  split; [exact Hr1|]. split; [reflexivity|]. split; [reflexivity|].
  split; [exact (Hvalid eq_refl)|].
  split; [exact Hr2|]. split; [reflexivity|]. split; [reflexivity|].
  exact (Hinvalid (Errorf "missing address") eq_refl).
Defined.

(** [deposit jack 1 10stake] with no fee payer given, where the payer
    becomes [jack], and with the fee payer [bob] given, where it stays
    [bob]. *)
Lemma C6_witness :
  let m := NewKuMsgDeposit "addr:jack" "jack" 1 "10stake" in
  reaches_lookup GetCmdDeposit ∅ ["jack"; "1"; "10stake"] "jack" "jack"
    (fun addr => NewKuMsgDeposit addr "jack" (strconv.decimal_value "1")
                                 "10stake") /\
  QueryAccountAuth cliCtx0 "jack" = Ok "addr:jack" /\
  ValidateBasic m = None /\
  In (EvGenerateOrBroadcastMsgs (Some "jack") "jack" [m])
     (trace (execute GetCmdDeposit ∅ ["jack"; "1"; "10stake"])) /\
  In (EvGenerateOrBroadcastMsgs (Some "jack") "bob" [m])
     (trace (@execute _ (@GetCmdDeposit _ payer_bob) ∅
               ["jack"; "1"; "10stake"])).
Proof.
  intros m.
  assert (Hr1 : reaches_lookup GetCmdDeposit ∅ ["jack"; "1"; "10stake"]
                  "jack" "jack"
                  (fun addr => NewKuMsgDeposit addr "jack"
                                 (strconv.decimal_value "1") "10stake"))
    by (apply reaches_deposit; reflexivity).
  assert (Hr2 : @reaches_lookup _ payer_bob (@GetCmdDeposit _ payer_bob) ∅
                  ["jack"; "1"; "10stake"] "jack" "jack"
                  (fun addr => NewKuMsgDeposit addr "jack"
                                 (strconv.decimal_value "1") "10stake"))
    by (apply (@reaches_deposit _ payer_bob); reflexivity).
  destruct (@C6_fee_payer_defaulting _ no_payer) as (_ & Hd1 & _).
  destruct (Hd1 ∅ ["jack"; "1"; "10stake"]) as (_ & Hpos1).
  destruct (Hpos1 _ _ _ "addr:jack" Hr1 eq_refl eq_refl) as (_ & Hin1).
  destruct (@C6_fee_payer_defaulting _ payer_bob) as (_ & Hd2 & _).
  destruct (Hd2 ∅ ["jack"; "1"; "10stake"]) as (_ & Hpos2).
  destruct (Hpos2 _ _ _ "addr:jack" Hr2 eq_refl eq_refl) as (_ & Hin2).
  split; [exact Hr1|]. split; [reflexivity|]. split; [reflexivity|].
  split; [exact Hin1 | exact Hin2].
Defined.

(** [deposit jack 1 10stake] with no fee payer given: the payer is the
    argument [jack], the address in the message is [addr:jack]. *)
Lemma C9_witness :
  let m := NewKuMsgDeposit "addr:jack" "jack" 1 "10stake" in
  reaches_lookup GetCmdDeposit ∅ ["jack"; "1"; "10stake"] "jack" "jack"
    (fun addr => NewKuMsgDeposit addr "jack" (strconv.decimal_value "1")
                                 "10stake") /\
  QueryAccountAuth cliCtx0 "jack" = Ok "addr:jack" /\
  ValidateBasic m = None /\
  AccountID_Empty (FeePayer txBldr0) = true /\
  ["jack"; "1"; "10stake"] !! 0%nat = Some "jack" /\
  msg_address m = "addr:jack" /\
  In (EvGenerateOrBroadcastMsgs (Some "jack") (WithPayer txBldr0 "jack") [m])
     (trace (execute GetCmdDeposit ∅ ["jack"; "1"; "10stake"])) /\
  WithPayer txBldr0 "jack" = "jack".
Proof.
  intros m.
  assert (Hr : reaches_lookup GetCmdDeposit ∅ ["jack"; "1"; "10stake"]
                 "jack" "jack"
                 (fun addr => NewKuMsgDeposit addr "jack"
                                (strconv.decimal_value "1") "10stake"))
    by (apply reaches_deposit; reflexivity).
  destruct C9_payer_set_from_raw_argument as (_ & Hd & _).
  destruct (Hd ∅ ["jack"; "1"; "10stake"]) as (_ & Hpos).
  destruct (Hpos _ _ _ "addr:jack" Hr eq_refl eq_refl eq_refl)
    as (Harg & Haddr & Hin).
  split; [exact Hr|]. split; [reflexivity|]. split; [reflexivity|].
  split; [reflexivity|]. split; [exact Harg|]. split; [exact Haddr|].
  split; [exact Hin | reflexivity].
Defined.

(** [deposit jack 0 10stake] and [vote jack 0 yes]. *)
Lemma C10_witness :
  strconv.is_decimal_uint64 "0" = true /\
  In (EvNewMsg (NewKuMsgDeposit "addr:jack" "jack" 0 "10stake"))
     (trace (execute GetCmdDeposit ∅ ["jack"; "0"; "10stake"])).
Proof.
  split; [reflexivity|].
  destruct (C10_every_uint64_proposal_id_accepted ∅ "jack" "0" "10stake"
              eq_refl) as (Hd & _).
  exact (Hd "10stake" "jack" "addr:jack" eq_refl eq_refl eq_refl).
Defined.

(** C7 as documented fails. In [vote] and in [unjail] an account id that
    does not parse is reported with the description "depositor account id
    error", which names neither the voter nor the validator; and in
    [deposit] the error of the coin parser is returned as it is, not
    wrapped. *)
Lemma C7_counterexample :
  (exists cause,
     ending (execute GetCmdVote ∅ [""; "1"; "yes"])
       = Failed (Wrap cause "depositor account id error") /\
     NewAccountIDFromStr "" = Err cause /\
     contains "voter" "depositor account id error" = false /\
     contains "voter"
       (Error (Wrap cause "depositor account id error")) = false) /\
  (exists cause,
     ending (execute GetCmdUnJail ∅ [""])
       = Failed (Wrap cause "depositor account id error") /\
     NewAccountIDFromStr "" = Err cause /\
     contains "validator" "depositor account id error" = false /\
     contains "validator"
       (Error (Wrap cause "depositor account id error")) = false) /\
  (exists e,
     ending (execute GetCmdDeposit ∅ ["jack"; "1"; "?"]) = Failed e /\
     ParseCoins "?" = Err e /\
     is_wrapped e = false).
Proof.
  split; [|split]; eexists; repeat split; reflexivity.
Qed.

(** [submit-proposal] with an empty account id and the deposit flag, and
    [deposit jack 1 10stake], which ends without an error. *)
Lemma C7_witness :
  let flags := Sample.flags_of [("deposit", "10test")] in
  ending (execute GetCmdSubmitProposal flags [""]) =
    Failed (Wrap (Errorf "account id is empty") "proposer account id error")
  /\ error_origin GetCmdSubmitProposal flags [""]
       (Wrap (Errorf "account id is empty") "proposer account id error")
  /\ ending (execute GetCmdDeposit ∅ ["jack"; "1"; "10stake"]) = Done tt
  /\ completes_only_on_success GetCmdDeposit ∅ ["jack"; "1"; "10stake"]
       (execute GetCmdDeposit ∅ ["jack"; "1"; "10stake"]).
Proof.
  intros flags.
  assert (H1 : ending (execute GetCmdSubmitProposal flags [""]) =
               Failed (Wrap (Errorf "account id is empty")
                            "proposer account id error"))
    by (vm_compute; reflexivity).
  destruct C7_every_error_has_an_origin as (Hs & Hd & _).
  destruct (Hs flags [""]) as (Ho & _).
  destruct (Hd ∅ ["jack"; "1"; "10stake"]) as (_ & _ & Hc).
  split; [assumption|]. split; [exact (Ho _ H1)|].
  split; [reflexivity | exact Hc].
Defined.

(** ** Further command lines *)

(** [deposit jack 007 10stake]. *)
Lemma deposit_message_from_arguments_witness :
  let m := NewKuMsgDeposit "addr:jack" "jack" 7 "10stake" in
  In (EvNewMsg m)
     (trace (execute GetCmdDeposit ∅ ["jack"; "007"; "10stake"])) /\
  exists a0 a1 a2 acc addr amount,
    ["jack"; "007"; "10stake"] = [a0; a1; a2] /\
    strconv.is_decimal_uint64 a1 = true /\
    ParseCoins a2 = Ok amount /\
    NewAccountIDFromStr a0 = Ok acc /\
    QueryAccountAuth cliCtx0 acc = Ok addr /\
    m = NewKuMsgDeposit addr acc (strconv.decimal_value a1) amount /\
    0 <= strconv.decimal_value a1 <= strconv.maxUint64.
Proof.
  intros m.
  assert (H : In (EvNewMsg m)
                 (trace (execute GetCmdDeposit ∅ ["jack"; "007"; "10stake"])))
    by (right; left; reflexivity).
  split; [assumption|].
  exact (deposit_message_from_arguments ∅ ["jack"; "007"; "10stake"] m H).
Defined.

(** [vote jack 42 no_with_veto]. *)
Lemma vote_message_from_arguments_witness :
  let m := NewKuMsgVote "addr:jack" "jack" 42 OptionNoWithVeto in
  In (EvNewMsg m)
     (trace (execute GetCmdVote ∅ ["jack"; "42"; "no_with_veto"])) /\
  exists a0 a1 a2 acc addr option,
    ["jack"; "42"; "no_with_veto"] = [a0; a1; a2] /\
    strconv.is_decimal_uint64 a1 = true /\
    VoteOptionFromString (NormalizeVoteOption a2) = Ok option /\
    NewAccountIDFromStr a0 = Ok acc /\
    QueryAccountAuth cliCtx0 acc = Ok addr /\
    m = NewKuMsgVote addr acc (strconv.decimal_value a1) option /\
    0 <= strconv.decimal_value a1 <= strconv.maxUint64.
Proof.
  intros m.
  assert (H : In (EvNewMsg m)
                 (trace (execute GetCmdVote ∅
                           ["jack"; "42"; "no_with_veto"])))
    by (right; left; reflexivity).
  split; [assumption|].
  exact (vote_message_from_arguments ∅ ["jack"; "42"; "no_with_veto"] m H).
Defined.

(** [submit-proposal jack --title=T --description=D --type=Text
    --deposit=10test]. *)
Lemma proposal_message_from_flags_witness :
  let flags := Sample.flags_of [("title", "T"); ("description", "D");
                                ("type", "Text"); ("deposit", "10test")] in
  let m := NewKuMsgSubmitProposal "addr:jack" ("T", "D", "Text") "10test"
                                  "jack" in
  In (EvNewMsg m) (trace (execute GetCmdSubmitProposal flags ["jack"])) /\
  exists a0 p amount acc addr,
    ["jack"] = [a0] /\
    parseSubmitProposalFlags flags = Ok p /\
    ParseCoins (Deposit p) = Ok amount /\
    NewAccountIDFromStr a0 = Ok acc /\
    QueryAccountAuth cliCtx0 acc = Ok addr /\
    m = NewKuMsgSubmitProposal addr
          (ContentFromProposalType (Title p) (Description p) (Type_ p))
          amount acc.
Proof.
  intros flags m.
  assert (H : In (EvNewMsg m)
                 (trace (execute GetCmdSubmitProposal flags ["jack"])))
    by (vm_compute; right; left; reflexivity).
  split; [assumption|].
  exact (proposal_message_from_flags flags ["jack"] m H).
Defined.

(** [unjail validator]. *)
Lemma unjail_message_from_argument_witness :
  let m := NewMsgGovUnjail "addr:validator" "validator" in
  In (EvNewMsg m) (trace (execute GetCmdUnJail ∅ ["validator"])) /\
  exists a0 acc addr,
    ["validator"] = [a0] /\
    NewAccountIDFromStr a0 = Ok acc /\
    QueryAccountAuth cliCtx0 acc = Ok addr /\
    m = NewMsgGovUnjail addr acc.
Proof.
  intros m.
  assert (H : In (EvNewMsg m) (trace (execute GetCmdUnJail ∅ ["validator"])))
    by (right; left; reflexivity).
  split; [assumption|].
  exact (unjail_message_from_argument ∅ ["validator"] m H).
Defined.

(** [deposit "" 1 ?]: both the account id and the coins are unusable, and
    the error is the one of the coins. *)
Lemma deposit_coin_error_comes_first_witness :
  strconv.is_decimal_uint64 "1" = true /\
  ParseCoins "?" = Err (Errorf "invalid coin expression: ?") /\
  execute GetCmdDeposit ∅ [""; "1"; "?"] =
    ([], Failed (Errorf "invalid coin expression: ?")).
Proof.
  split; [reflexivity|]. split; [reflexivity|].
  exact (deposit_coin_error_comes_first ∅ "" "1" "?"
           (Errorf "invalid coin expression: ?") eq_refl eq_refl).
Defined.

(** [submit-proposal "" --deposit=?]. *)
Lemma proposal_deposit_error_comes_first_witness :
  let flags := Sample.flags_of [("deposit", "?")] in
  parseSubmitProposalFlags flags = Ok (mkProposal "" "" "" "?") /\
  ParseCoins (Deposit (mkProposal "" "" "" "?"))
    = Err (Errorf "invalid coin expression: ?") /\
  execute GetCmdSubmitProposal flags [""] =
    ([], Failed (Errorf "invalid coin expression: ?")).
Proof.
  intros flags.
  assert (H1 : parseSubmitProposalFlags flags = Ok (mkProposal "" "" "" "?"))
    by (vm_compute; reflexivity).
  assert (H2 : ParseCoins (Deposit (mkProposal "" "" "" "?"))
               = Err (Errorf "invalid coin expression: ?")) by reflexivity.
  split; [assumption|]. split; [assumption|].
  exact (proposal_deposit_error_comes_first flags "" _ _ H1 H2).
Defined.

(** [vote "" 1 yes]. *)
Lemma unparsable_account_never_queried_witness :
  [""; "1"; "yes"] !! 0%nat = Some "" /\
  NewAccountIDFromStr "" = Err (Errorf "account id is empty") /\
  trace (execute GetCmdVote ∅ [""; "1"; "yes"]) = [] /\
  exists e, ending (execute GetCmdVote ∅ [""; "1"; "yes"]) = Failed e.
Proof.
  split; [reflexivity|]. split; [reflexivity|].
  destruct unparsable_account_never_queried as (_ & _ & Hv & _).
  exact (Hv ∅ [""; "1"; "yes"] "" (Errorf "account id is empty")
            eq_refl eq_refl).
Defined.

(** [deposit jack 07 10stake] and [deposit jack 7 10stake]. *)
Lemma leading_zero_same_run_witness :
  strconv.is_decimal_uint64 "7" = true /\
  strconv.decimal_value ("0" +:+ "7") = strconv.decimal_value "7" /\
  execute GetCmdDeposit ∅ ["jack"; "0" +:+ "7"; "10stake"] =
    execute GetCmdDeposit ∅ ["jack"; "7"; "10stake"] /\
  execute GetCmdVote ∅ ["jack"; "0" +:+ "7"; "10stake"] =
    execute GetCmdVote ∅ ["jack"; "7"; "10stake"].
Proof.
  split; [reflexivity|].
  exact (leading_zero_same_run ∅ "jack" "7" "10stake" eq_refl).
Defined.

(** [deposit jack -1 10stake] and [vote jack -1 yes]. *)
Lemma non_digit_proposal_id_rejected_witness :
  strconv.is_decimal_digit "-"%char = false /\
  execute GetCmdDeposit ∅ ["jack"; "" +:+ String "-"%char "1"; "yes"] =
    ([], Failed (Errorf ("proposal-id " +:+ ("" +:+ String "-"%char "1") +:+
           " not a valid uint, please input a valid proposal-id"))) /\
  execute GetCmdVote ∅ ["jack"; "" +:+ String "-"%char "1"; "yes"] =
    ([], Failed (Errorf ("proposal-id " +:+ ("" +:+ String "-"%char "1") +:+
           " not a valid int, please input a valid proposal-id"))).
Proof.
  split; [reflexivity|].
  exact (non_digit_proposal_id_rejected ∅ "jack" "" "-"%char "1" "yes"
           eq_refl).
Defined.

(** The run functions of [deposit] and [vote] on the one argument [jack]. *)
Lemma missing_argument_panics_witness :
  (length ["jack"] < 2)%nat /\
  Deposit_RunE ∅ ["jack"] = ([], Panicked) /\
  Vote_RunE ∅ ["jack"] = ([], Panicked).
Proof.
  assert (H : (length ["jack"] < 2)%nat) by (cbn; lia).
  split; [assumption|].
  destruct (missing_argument_panics ∅ ["jack"] H) as (Hd & Hv & _).
  split; assumption.
Defined.

(** 2^64, one more than the largest unsigned 64-bit integer. *)
Lemma ParseUint_on_digits_witness :
  "18446744073709551616" <> "" /\
  strconv.all_decimal_digits "18446744073709551616" = true /\
  strconv.ParseUint "18446744073709551616"
    = (strconv.maxUint64, Some strconv.ErrRange).
Proof.
  assert (H1 : "18446744073709551616" <> "") by discriminate.
  split; [assumption|]. split; [reflexivity|].
  exact (ParseUint_on_digits "18446744073709551616" H1 eq_refl).
Defined.

(** A digit string that overflows before its letter: a range error. *)
Lemma ParseUint_error_value_witness :
  strconv.ParseUint "99999999999999999999x"
    = (strconv.maxUint64, Some strconv.ErrRange) /\
  strconv.maxUint64 = 18446744073709551615.
Proof.
  assert (H : strconv.ParseUint "99999999999999999999x"
              = (strconv.maxUint64, Some strconv.ErrRange))
    by (vm_compute; reflexivity).
  split; [assumption|].
  destruct (ParseUint_error_value _ _ _ H) as (Hv & _).
  exact Hv.
Defined.
